(** * Solar-Radiation dashboard (app/main.py): data loading, filtering,
      ranking and cleaning-impact views.

    The script is a sequence of pandas, os.path, plotly-express and streamlit
    calls.  The library operations it uses are given the meaning their
    documentation gives them ([os_path], [pd], [px], [st] below); the script
    itself is transcribed statement by statement in [main].

    A number of a frame is a float: a rational ([Num]) or an infinity
    ([Inf]); a missing value is [NaN].  Float64 rounding is not modelled bit
    by bit: the mean of a group is an operation of the arithmetic of the run
    ([pd.arithmetic]). *)

From Stdlib Require Import QArith.
From stdpp Require Import gmap strings list fin_maps sorting.
Close Scope Q_scope.

(** ** Exceptions and fallible results *)

Inductive exn :=
  | KeyError (key : string)
  | ValueError (msg : string)
  | TypeError (msg : string)
  | ParserError (msg : string).

Inductive result (A : Type) :=
  | Ok (a : A)
  | Raise (e : exn).
Arguments Ok {A} a.
Arguments Raise {A} e.

#[global] Instance result_ret : MRet result := λ A a, Ok a.
#[global] Instance result_bind : MBind result := λ A B f m,
  match m with
  | Ok a => f a
  | Raise e => Raise e
  end.

(** ** Generic list helpers used by the pandas operations *)

(** Insertion of [x] before the first element it is below: the step of a
    stable sort. *)
Fixpoint insert_by {A} (leb : A → A → bool) (x : A) (l : list A) : list A :=
  match l with
  | [] => [x]
  | y :: l' => if leb x y then x :: y :: l' else y :: insert_by leb x l'
  end.

Definition sort_by {A} (leb : A → A → bool) (l : list A) : list A :=
  foldr (insert_by leb) [] l.

(** Distinct elements, in order of first appearance. *)
Fixpoint dedup_from {A} (eqb : A → A → bool) (seen l : list A) : list A :=
  match l with
  | [] => seen
  | x :: l' =>
      if existsb (eqb x) seen then dedup_from eqb seen l'
      else dedup_from eqb (seen ++ [x]) l'
  end.

Definition dedup_by {A} (eqb : A → A → bool) (l : list A) : list A :=
  dedup_from eqb [] l.

(** ** os.path *)

Module os_path.

Definition starts_with_slash (s : string) : bool :=
  String.prefix "/" s.

Fixpoint ends_with_slash (s : string) : bool :=
  match s with
  | EmptyString => false
  | String c EmptyString => bool_decide (String c "" = "/")
  | String _ s' => ends_with_slash s'
  end.

(** posixpath.join on two components. *)
Definition join (a b : string) : string :=
  if starts_with_slash b then b
  else if bool_decide (a = "") || ends_with_slash a then a +:+ b
  else a +:+ "/" +:+ b.

End os_path.

(** ** pandas *)

Module pd.

Inductive cell :=
  | NaN
  | Num (q : Q)
  | Inf (negative : bool)
  | Str (s : string)
  | Datetime (t : Z).

(** A row maps column labels to cells; a label without entry reads as
    [NaN]. *)
Abbreviation row := (gmap string cell).

Record DataFrame := {
  columns : list string;
  rows : list row
}.

(** [pd.DataFrame()] *)
Definition DataFrame_ : DataFrame := {| columns := []; rows := [] |}.

Definition cell_at (r : row) (c : string) : cell := default NaN (r !! c).

(** [df.empty]: some axis has length 0. *)
Definition empty (df : DataFrame) : bool :=
  match columns df, rows df with
  | [], _ | _, [] => true
  | _, _ => false
  end.

Definition isna (c : cell) : bool :=
  match c with NaN => true | _ => false end.

(** Equality of values as [unique], [isin] and [groupby] see it: missing
    values are equal to each other. *)
Definition cell_eqb (a b : cell) : bool :=
  match a, b with
  | NaN, NaN => true
  | Num x, Num y => Qeq_bool x y
  | Inf n, Inf m => bool_decide (n = m)
  | Str x, Str y => bool_decide (x = y)
  | Datetime x, Datetime y => bool_decide (x = y)
  | _, _ => false
  end.

Definition cell_rank (c : cell) : nat :=
  match c with
  | NaN => 0
  | Num _ | Inf _ => 1
  | Str _ => 2
  | Datetime _ => 3
  end.

(** Order of values inside a column: floats by size, minus infinity below
    and plus infinity above every number.  Columns hold one kind of value,
    the order across kinds is only there to make the function total. *)
Definition cell_leb (a b : cell) : bool :=
  match a, b with
  | Num x, Num y => Qle_bool x y
  | Inf n, Inf m => n || negb m
  | Inf n, Num _ => n
  | Num _, Inf m => negb m
  | Str x, Str y => String.leb x y
  | Datetime x, Datetime y => (x <=? y)%Z
  | _, _ => (cell_rank a <=? cell_rank b)%nat
  end.

(** [df[col]]: the column as a list of values. *)
Definition getitem (df : DataFrame) (col : string) : result (list cell) :=
  if bool_decide (col ∈ columns df)
  then Ok (map (λ r, cell_at r col) (rows df))
  else Raise (KeyError col).

Definition add_column (cols : list string) (col : string) : list string :=
  if bool_decide (col ∈ cols) then cols else cols ++ [col].

(** [df[col] = value] with a scalar. *)
Definition setitem (df : DataFrame) (col : string) (v : cell) : DataFrame :=
  {| columns := add_column (columns df) col;
     rows := map (λ r, <[col := v]> r) (rows df) |}.

(** [df[col] = series] with one value per row. *)
Definition setitem_series (df : DataFrame) (col : string) (vs : list cell)
  : DataFrame :=
  {| columns := add_column (columns df) col;
     rows := map (λ p, <[col := p.2]> (p.1 : row)) (zip (rows df) vs) |}.

(** [df.columns = names] *)
Definition set_columns (df : DataFrame) (names : list string)
  : result DataFrame :=
  if bool_decide (length names = length (columns df))
  then Ok {| columns := names;
             rows := map (λ r : row,
                       list_to_map (zip names (map (cell_at r) (columns df))))
                     (rows df) |}
  else Raise (ValueError "Length mismatch").

(** [series.isin(values)] *)
Definition isin (s : list cell) (values : list cell) : list bool :=
  map (λ c, existsb (cell_eqb c) values) s.

(** [df[mask]] with a boolean mask. *)
Definition getitem_mask (df : DataFrame) (mask : list bool) : DataFrame :=
  {| columns := columns df;
     rows := map fst (List.filter snd (zip (rows df) mask)) |}.

(** [series.unique()] *)
Definition unique (s : list cell) : list cell := dedup_by cell_eqb s.

Definition dropna (s : list cell) : list cell :=
  List.filter (λ c, negb (isna c)) s.

(** [series.nunique()]: missing values are not counted. *)
Definition nunique (s : list cell) : nat := length (unique (dropna s)).

(** A float that is a number. *)
Inductive float :=
  | Finite (q : Q)
  | Infinite (negative : bool).

(** The arithmetic of a run: the mean pandas computes of a list of floats
    that is not empty, in float64 (rounded, infinite on overflow, [None]
    when it is not a number), and the mean of a list of date-times. *)
Record arithmetic := {
  float_mean : list float → option float;
  datetime_mean : list Z → Z
}.

Definition to_float (c : cell) : option float :=
  match c with
  | Num q => Some (Finite q)
  | Inf n => Some (Infinite n)
  | _ => None
  end.

Definition of_float (x : option float) : cell :=
  match x with
  | Some (Finite q) => Num q
  | Some (Infinite n) => Inf n
  | None => NaN
  end.

Definition to_time (c : cell) : option Z :=
  match c with Datetime t => Some t | _ => None end.

(** The mean of the values of one group: missing values are skipped and no
    value at all gives [NaN]; floats and date-times have a mean; text, or
    values of different kinds, raise [TypeError]. *)
Definition mean (ar : arithmetic) (s : list cell) : result cell :=
  match dropna s with
  | [] => Ok NaN
  | vals =>
      match mapM to_float vals with
      | Some xs => Ok (of_float (float_mean ar xs))
      | None =>
          match mapM to_time vals with
          | Some ts => Ok (Datetime (datetime_mean ar ts))
          | None =>
              Raise (TypeError "agg function failed [how->mean,dtype->object]")
          end
      end
  end.

(** Columns of the frames in order of first appearance. *)
Definition union_columns (dfs : list DataFrame) : list string :=
  foldl (λ acc d, foldl add_column acc (columns d)) [] dfs.

Definition reindex (cols : list string) (r : row) : row :=
  foldr (λ c acc, <[c := cell_at r c]> acc) ∅ cols.

(** [pd.concat(dfs, ignore_index=True)] on a non-empty list. *)
Definition concat (dfs : list DataFrame) : DataFrame :=
  let cols := union_columns dfs in
  {| columns := cols;
     rows := flat_map (λ d, map (reindex cols) (rows d)) dfs |}.

(** The group keys of [groupby]: distinct, without missing ones, sorted. *)
Definition group_keys (keys : list cell) : list cell :=
  sort_by cell_leb (unique (dropna keys)).

(** Values of the rows whose key is [k]. *)
Definition select (k : cell) (keys vals : list cell) : list cell :=
  map snd (List.filter (λ p, cell_eqb k p.1) (zip keys vals)).

(** [df.groupby(by)[col].mean()]: a series indexed by the group key. *)
Definition groupby_mean (ar : arithmetic) (df : DataFrame) (by_ col : string)
  : result (list (cell * cell)) :=
  keys ← getitem df by_;
  vals ← getitem df col;
  mapM (λ k, m ← mean ar (select k keys vals); Ok (k, m)) (group_keys keys).

(** [series.sort_values(ascending=False)]: larger values first, missing
    values last; equal values keep their order. *)
Definition sort_values_desc (s : list (cell * cell)) : list (cell * cell) :=
  sort_by (λ a b, cell_leb b.2 a.2) (List.filter (λ p, negb (isna p.2)) s)
  ++ List.filter (λ p, isna p.2) s.

(** [series.reset_index()] for a series named [name] whose index is named
    [index]. *)
Definition reset_index (index name : string) (s : list (cell * cell))
  : DataFrame :=
  {| columns := [index; name];
     rows := map (λ p, <[index := p.1]> (<[name := p.2]> ∅)) s |}.

(** Two-key groups: pairs of keys, neither missing. *)
Definition pair_eqb (a b : cell * cell) : bool :=
  cell_eqb a.1 b.1 && cell_eqb a.2 b.2.

Definition pair_leb (a b : cell * cell) : bool :=
  if cell_eqb a.1 b.1 then cell_leb a.2 b.2 else cell_leb a.1 b.1.

Definition group_keys2 (keys : list (cell * cell)) : list (cell * cell) :=
  sort_by pair_leb
    (dedup_by pair_eqb
       (List.filter (λ k, negb (isna k.1) && negb (isna k.2)) keys)).

Definition select2 (k : cell * cell) (keys : list (cell * cell))
    (vals : list cell) : list cell :=
  map snd (List.filter (λ p, pair_eqb k p.1) (zip keys vals)).

(** [df.groupby([by1, by2])[[c1, c2]].mean().reset_index()] *)
Definition groupby2_mean (ar : arithmetic) (df : DataFrame)
    (by1 by2 c1 c2 : string) : result DataFrame :=
  k1 ← getitem df by1;
  k2 ← getitem df by2;
  v1 ← getitem df c1;
  v2 ← getitem df c2;
  let keys := zip k1 k2 in
  rs ← mapM (λ k : cell * cell,
         m1 ← mean ar (select2 k keys v1);
         m2 ← mean ar (select2 k keys v2);
         Ok (<[by1 := k.1]> (<[by2 := k.2]>
               (<[c1 := m1]> (<[c2 := m2]> (∅ : row))))))
       (group_keys2 keys);
  Ok {| columns := [by1; by2; c1; c2]; rows := rs |}.

(** [series.map(d)] with a dict keyed by numbers: values without key
    become missing. *)
Definition map_dict (d : list (Q * cell)) (s : list cell) : list cell :=
  map (λ c,
    match c with
    | Num q =>
        match List.find (λ e, Qeq_bool e.1 q) d with
        | Some e => e.2
        | None => NaN
        end
    | _ => NaN
    end) s.

(** The date conversion of one column: when every value parses the column
    becomes a column of date-times, when some value does not parse the
    column is returned unaltered. *)
Definition parse_column (to_datetime : cell → option cell) (col : string)
    (df : DataFrame) : DataFrame :=
  match mapM to_datetime (map (λ r, cell_at r col) (rows df)) with
  | Some dates => setitem_series df col dates
  | None => df
  end.

(** [pd.read_csv(path, parse_dates=cols)] as pandas documents it, from the
    table [read_table] finds in the file and the date parser [to_datetime]:
    a column of [cols] that the file does not have is an error, the others
    go through [parse_column]. *)
Definition read_csv (read_table : string → result DataFrame)
    (to_datetime : cell → option cell) (path : string)
    (parse_dates : list string) : result DataFrame :=
  df ← read_table path;
  match List.find (λ c, negb (bool_decide (c ∈ columns df))) parse_dates with
  | Some c =>
      Raise (ValueError ("Missing column provided to 'parse_dates': '"
                         +:+ c +:+ "'"))
  | None => Ok (foldl (λ d c, parse_column to_datetime c d) df parse_dates)
  end.

End pd.

(** ** plotly.express *)

Module px.

Inductive figure :=
  | Box (data : pd.DataFrame) (x y color title : string)
      (labels : list (string * string))
  | Line (data : pd.DataFrame) (x y color title : string)
  | Bar (data : pd.DataFrame) (x : string) (y : list string)
      (color barmode title : string).

(** plotly-express refuses a column name that the frame does not have. *)
Definition check_columns (data : pd.DataFrame) (cols : list string)
  : result unit :=
  match List.find (λ c, negb (bool_decide (c ∈ pd.columns data))) cols with
  | Some c => Raise (ValueError c)
  | None => Ok tt
  end.

Definition box data x y color title labels : result figure :=
  check_columns data [x; y; color];;
  Ok (Box data x y color title labels).

Definition line data x y color title : result figure :=
  check_columns data [x; y; color];;
  Ok (Line data x y color title).

Definition bar data x y color barmode title : result figure :=
  check_columns data (x :: y ++ [color]);;
  Ok (Bar data x y color barmode title).

End px.

(** ** streamlit *)

Module st.

(** What the page shows, in order. *)
Inductive element :=
  | page_config (layout : string)
  | title (body : string)
  | sidebar_header (body : string)
  | subheader (body : string)
  | error (body : string)
  | warning (body : string)
  | info (body : string)
  | plotly_chart (fig : px.figure) (use_container_width : bool)
  | dataframe (data : pd.DataFrame).

(** A run of the script: it appends to the page and returns or raises. *)
Definition App (A : Type) : Type :=
  list element → list element * result A.

#[global] Instance App_ret : MRet App := λ A a page, (page, Ok a).
#[global] Instance App_bind : MBind App := λ A B f m page,
  match m page with
  | (page', Ok a) => f a page'
  | (page', Raise e) => (page', Raise e)
  end.

Definition show (e : element) : App unit := λ page, (page ++ [e], Ok tt).

Definition lift {A} (r : result A) : App A := λ page, (page, r).

End st.

(** ** app/main.py *)

(** [name.split(" ")[-1]] *)
Fixpoint last_word (acc s : string) : string :=
  match s with
  | EmptyString => acc
  | String c s' =>
      if bool_decide (String c "" = " ") then last_word "" s'
      else last_word (acc +:+ String c "") s'
  end.

(** [sub in s] for strings *)
Definition str_in (sub s : string) : bool :=
  match String.index 0 sub s with Some _ => true | None => false end.

Section main.

(** The file system, the arithmetic and the widgets of one run. *)
Variable os_path_exists : string → bool.
Variable read_csv : string → list string → result pd.DataFrame.
Variable arith : pd.arithmetic.
Variable multiselect : string → list pd.cell → list pd.cell → list pd.cell.
Variable selectbox : string → list string → string.

Definition base_path : string := "../data/".

Definition country_files : list (string * string) :=
  [("Benin", "benin_clean.csv");
   ("Sierra Leone", "sierra_leone_clean.csv");
   ("Togo", "togo_clean.csv")].

(** The [for] loop of [load_all_cleaned_data] and what follows it, over the
    remaining items of the mapping. *)
Fixpoint load_loop (base : string) (items : list (string * string))
    (all_dfs : list pd.DataFrame) : st.App pd.DataFrame :=
  match items with
  | (country, filename) :: items' =>
      let file_path := os_path.join base filename in
      if os_path_exists file_path then
        df ← st.lift (read_csv file_path ["Timestamp"]);
        let df := pd.setitem df "Country" (pd.Str country) in
        load_loop base items' (all_dfs ++ [df])
      else
        st.show (st.error ("Error: Cleaned data file not found for "
          +:+ country +:+ " at " +:+ file_path
          +:+ ". Please run EDA notebooks first."));;
        mret pd.DataFrame_
  | [] =>
      match all_dfs with
      | _ :: _ => mret (pd.concat all_dfs)
      | [] => mret pd.DataFrame_
      end
  end.

(** [load_all_cleaned_data] for a given directory and mapping.  The
    [st.cache_data] decorator only memoises the returned frame. *)
Definition load_files (base : string) (files : list (string * string))
  : st.App pd.DataFrame :=
  load_loop base files [].

Definition load_all_cleaned_data : st.App pd.DataFrame :=
  load_files base_path country_files.

Definition metric_options : list string :=
  ["GHI"; "DNI"; "DHI"; "Tamb"; "RH"; "WS"; "BP"].

(** [df_combined[df_combined['Country'].isin(selected_countries)]] *)
Definition filtered_df (df_combined : pd.DataFrame)
    (selected_countries : list pd.cell) : result pd.DataFrame :=
  country ← pd.getitem df_combined "Country";
  Ok (pd.getitem_mask df_combined (pd.isin country selected_countries)).

(** [df_combined['Country'].unique().tolist()] *)
Definition all_countries (df_combined : pd.DataFrame)
  : result (list pd.cell) :=
  country ← pd.getitem df_combined "Country";
  Ok (pd.unique country).

(** The box plot and the time series of the selected metric. *)
Definition metric_charts (view : pd.DataFrame) (selected_metric : string)
  : st.App unit :=
  st.show (st.subheader ("Distribution of " +:+ selected_metric
    +:+ " Across Selected Countries"));;
  _ ← st.lift (pd.getitem view selected_metric);
  let name := selected_metric in
  let unit_ := if str_in "(" name then last_word "" name else "" in
  fig_box ← st.lift (px.box view "Country" selected_metric "Country"
    (selected_metric +:+ " Distribution")
    [(selected_metric, selected_metric +:+ " (" +:+ unit_ +:+ ")")]);
  st.show (st.plotly_chart fig_box true);;
  st.show (st.subheader ("Time Series of " +:+ selected_metric));;
  fig_line ← st.lift (px.line view "Timestamp" selected_metric "Country"
    (selected_metric +:+ " Over Time"));
  st.show (st.plotly_chart fig_line true).

(** [filtered_df.groupby('Country')['GHI'].mean()
      .sort_values(ascending=False).reset_index()] with its columns
    renamed. *)
Definition avg_ghi_ranking (view : pd.DataFrame) : result pd.DataFrame :=
  s ← pd.groupby_mean arith view "Country" "GHI";
  pd.set_columns (pd.reset_index "Country" "GHI" (pd.sort_values_desc s))
    ["Country"; "Average GHI ($W/m^2$)"].

Definition ranking_table (view : pd.DataFrame) : st.App unit :=
  st.show (st.subheader "Average GHI Ranking (Selected Countries)");;
  if bool_decide ("GHI" ∈ pd.columns view) then
    ranking ← st.lift (avg_ghi_ranking view);
    st.show (st.dataframe ranking)
  else
    st.show (st.info "GHI data not available for ranking in filtered selection.").

(** [filtered_df.groupby(['Country', 'Cleaning'])[['ModA', 'ModB']]
      .mean().reset_index()] with its [Cleaning Status] column. *)
Definition cleaning_impact_df (view : pd.DataFrame) : result pd.DataFrame :=
  impact ← pd.groupby2_mean arith view "Country" "Cleaning" "ModA" "ModB";
  cleaning ← pd.getitem impact "Cleaning";
  Ok (pd.setitem_series impact "Cleaning Status"
        (pd.map_dict [(0%Q, pd.Str "No Cleaning");
                      (1%Q, pd.Str "Cleaning Occurred")] cleaning)).

Definition cleaning_chart (view : pd.DataFrame) : st.App unit :=
  if bool_decide ("Cleaning" ∈ pd.columns view) then
    cleaning ← st.lift (pd.getitem view "Cleaning");
    if (1 <? pd.nunique cleaning)%nat then
      st.show (st.subheader "Average ModA & ModB by Cleaning Event");;
      impact ← st.lift (cleaning_impact_df view);
      fig_cleaning ← st.lift (px.bar impact "Country" ["ModA"; "ModB"]
        "Cleaning Status" "group" "Average Module Readings Pre/Post-Cleaning");
      st.show (st.plotly_chart fig_cleaning true)
    else mret tt
  else mret tt.

(** The body of [if not df_combined.empty: ... else: ...]. *)
Definition dashboard (df_combined : pd.DataFrame) : st.App unit :=
  if negb (pd.empty df_combined) then
    st.show (st.sidebar_header "Filter Options");;
    options ← st.lift (all_countries df_combined);
    let selected_countries :=
      multiselect "Select Countries:" options options in
    view ← st.lift (filtered_df df_combined selected_countries);
    if negb (pd.empty view) then
      let selected_metric :=
        selectbox "Select Metric for Analysis:" metric_options in
      metric_charts view selected_metric;;
      ranking_table view;;
      cleaning_chart view
    else
      st.show (st.info "Please select at least one country to view data.")
  else
    st.show (st.warning "No data loaded. Please ensure the EDA notebooks were run successfully and cleaned CSVs are in the 'data/' directory.").

Definition main : st.App unit :=
  st.show (st.page_config "wide");;
  st.show (st.title "Cross-Country Solar Farm Analysis Dashboard");;
  df_combined ← load_all_cleaned_data;
  dashboard df_combined.

End main.

(** ** Notions used to state the properties *)

(** A float or a missing value: what a numeric column holds. *)
Definition float_or_missing (c : pd.cell) : Prop :=
  match c with
  | pd.NaN | pd.Num _ | pd.Inf _ => True
  | _ => False
  end.

(** Column [col] of [view] is numeric. *)
Definition numeric_column (view : pd.DataFrame) (col : string) : Prop :=
  ∀ r, r ∈ pd.rows view → float_or_missing (pd.cell_at r col).

(** Descending order of means: the first is the larger or equal one, for
    numbers [y <= x]; a missing mean ranks below every other. *)
Definition mean_ge (a b : pd.cell) : Prop :=
  match a, b with
  | _, pd.NaN => True
  | pd.NaN, _ => False
  | pd.Num x, pd.Num y => (y <= x)%Q
  | _, _ => pd.cell_leb b a = true
  end.

(** The values of column [col] in the rows of [view] whose [by_] cell is
    [k]. *)
Definition group_values (view : pd.DataFrame) (by_ : string) (k : pd.cell)
    (col : string) : list pd.cell :=
  map (λ r, pd.cell_at r col)
    (List.filter (λ r, pd.cell_eqb k (pd.cell_at r by_)) (pd.rows view)).

Definition group_values2 (view : pd.DataFrame) (by1 by2 : string)
    (k1 k2 : pd.cell) (col : string) : list pd.cell :=
  map (λ r, pd.cell_at r col)
    (List.filter (λ r, pd.cell_eqb k1 (pd.cell_at r by1)
                       && pd.cell_eqb k2 (pd.cell_at r by2)) (pd.rows view)).


(** The (country, mean) pairs of a ranking table. *)
Definition ranking_pairs (t : pd.DataFrame) : list (pd.cell * pd.cell) :=
  map (λ r, (pd.cell_at r "Country", pd.cell_at r "Average GHI ($W/m^2$)"))
    (pd.rows t).

Definition shown_tables (page : list st.element) : list pd.DataFrame :=
  omap (λ e, match e with st.dataframe t => Some t | _ => None end) page.

Definition missing_file_message (country file_path : string) : string :=
  "Error: Cleaned data file not found for " +:+ country +:+ " at "
  +:+ file_path +:+ ". Please run EDA notebooks first.".

(** The frames of the files, each with its [Country] column set, in the
    order of the mapping. *)
Definition tag_frames (files : list (string * string))
    (frames : list pd.DataFrame) : list pd.DataFrame :=
  zip_with (λ cf d, pd.setitem d "Country" (pd.Str cf.1)) files frames.

(** Every configured file exists and is read as the frame at its place in
    [frames]. *)
Definition readable (os_path_exists : string → bool)
    (read_csv : string → list string → result pd.DataFrame)
    (base : string) (files : list (string * string))
    (frames : list pd.DataFrame) : Prop :=
  Forall2 (λ cf d,
    os_path_exists (os_path.join base cf.2) = true ∧
    read_csv (os_path.join base cf.2) ["Timestamp"] = Ok d) files frames.

(** The Country and Cleaning cells of a row. *)
Definition group_of (r : gmap string pd.cell) : pd.cell * pd.cell :=
  (pd.cell_at r "Country", pd.cell_at r "Cleaning").


(** The row of the cleaning-impact table for the group [k] with the means
    [a] of ModA and [b] of ModB. *)
Definition impact_row (k : pd.cell * pd.cell) (a b : pd.cell)
  : gmap string pd.cell :=
  <["Cleaning Status" :=
      match k.2 with
      | pd.Num q =>
          if Qeq_bool 0 q then pd.Str "No Cleaning"
          else if Qeq_bool 1 q then pd.Str "Cleaning Occurred"
          else pd.NaN
      | _ => pd.NaN
      end]>
  (<["Country" := k.1]> (<["Cleaning" := k.2]>
    (<["ModA" := a]> (<["ModB" := b]> ∅)))).

(** The rows of a cleaning-impact table: one per group, with the means of
    the group. *)
Definition impact_rows_of (ar : pd.arithmetic) (view : pd.DataFrame)
    (keys : list (pd.cell * pd.cell)) (rs : list (gmap string pd.cell))
  : Prop :=
  Forall2 (λ k r, ∃ a b,
    pd.mean ar (group_values2 view "Country" "Cleaning" k.1 k.2 "ModA") = Ok a ∧
    pd.mean ar (group_values2 view "Country" "Cleaning" k.1 k.2 "ModB") = Ok b ∧
    r = impact_row k a b) keys rs.

(** Every run of [m] only appends to the page, and what it appends
    satisfies [P]. *)
Definition appends {A} (P : st.element → Prop) (m : st.App A) : Prop :=
  ∀ page, ∃ added, (m page).1 = page ++ added ∧ Forall P added.

(** An element that is no [st.error]. *)
Definition no_error (e : st.element) : Prop := ∀ body, e ≠ st.error body.

(** An element that is no [st.error], or is the message for a configured
    file that does not exist. *)
Definition error_is_missing_file (os_path_exists : string → bool)
    (base : string) (files : list (string * string)) (e : st.element)
  : Prop :=
  no_error e ∨
  ∃ cf, cf ∈ files ∧ os_path_exists (os_path.join base cf.2) = false ∧
        e = st.error (missing_file_message cf.1 (os_path.join base cf.2)).

(** ** Example data *)

(** An arithmetic without rounding, for the examples.  Float64 computes the
    same means on the example data, whose values are small whole numbers
    with whole or half means. *)
Definition Qsum (xs : list Q) : Q := foldr Qplus 0%Q xs.

Definition exact_float_mean (xs : list pd.float) : option pd.float :=
  let plus :=
    existsb (λ x, match x with pd.Infinite false => true | _ => false end) xs in
  let minus :=
    existsb (λ x, match x with pd.Infinite true => true | _ => false end) xs in
  if plus && minus then None
  else if plus then Some (pd.Infinite false)
  else if minus then Some (pd.Infinite true)
  else
    let qs := omap (λ x, match x with pd.Finite q => Some q | _ => None end)
                xs in
    Some (pd.Finite (Qred (Qsum qs / inject_Z (Z.of_nat (length qs))))).

Definition exact_datetime_mean (ts : list Z) : Z :=
  (foldr Z.add 0 ts / Z.of_nat (length ts))%Z.

Definition exact_arithmetic : pd.arithmetic :=
  {| pd.float_mean := exact_float_mean;
     pd.datetime_mean := exact_datetime_mean |}.

Definition observation (ts : Z) (ghi dni moda modb cleaning : Q)
  : gmap string pd.cell :=
  <["Timestamp" := pd.Datetime ts]> (<["GHI" := pd.Num ghi]>
    (<["DNI" := pd.Num dni]> (<["ModA" := pd.Num moda]>
      (<["ModB" := pd.Num modb]> (<["Cleaning" := pd.Num cleaning]> ∅))))).

Definition sensor_columns : list string :=
  ["Timestamp"; "GHI"; "DNI"; "ModA"; "ModB"; "Cleaning"].

Definition benin_csv : pd.DataFrame :=
  {| pd.columns := sensor_columns;
     pd.rows := [observation 0 500 100 480 470 0;
                 observation 60 300 200 310 330 1] |}.

Definition sierra_leone_csv : pd.DataFrame :=
  {| pd.columns := sensor_columns;
     pd.rows := [observation 0 300 900 290 280 0] |}.

Definition togo_csv : pd.DataFrame :=
  {| pd.columns := sensor_columns;
     pd.rows := [observation 0 450 50 440 430 0] |}.

(** A disk on which exactly the paths of [present] exist. *)
Definition disk_exists (present : list string) (p : string) : bool :=
  bool_decide (p ∈ present).

Definition disk_read_csv (p : string) (parse_dates : list string)
  : result pd.DataFrame :=
  if bool_decide (p = "../data/benin_clean.csv") then Ok benin_csv
  else if bool_decide (p = "../data/sierra_leone_clean.csv")
  then Ok sierra_leone_csv
  else if bool_decide (p = "../data/togo_clean.csv") then Ok togo_csv
  else Raise (ParserError p).

Definition all_three : list string :=
  ["../data/benin_clean.csv"; "../data/sierra_leone_clean.csv";
   "../data/togo_clean.csv"].

Definition without_sierra_leone : list string :=
  ["../data/benin_clean.csv"; "../data/togo_clean.csv"].

(** The frame the script loads from the full example disk. *)
Definition example_dataset : pd.DataFrame :=
  pd.concat [pd.setitem benin_csv "Country" (pd.Str "Benin");
             pd.setitem sierra_leone_csv "Country" (pd.Str "Sierra Leone");
             pd.setitem togo_csv "Country" (pd.Str "Togo")].


Definition no_cleaning_column : pd.DataFrame :=
  {| pd.columns := ["Timestamp"; "GHI"; "Country"];
     pd.rows := [<["Timestamp" := pd.Datetime 0]> (<["GHI" := pd.Num 500]>
                   (<["Country" := pd.Str "Benin"]> ∅))] |}.

(** Widgets: the default selection, an emptied selection, a chosen
    metric. *)
Definition keep_default (label : string) (options default : list pd.cell)
  : list pd.cell := default.

Definition select_none (label : string) (options default : list pd.cell)
  : list pd.cell := [].

Definition choose (metric : string) (label : string) (options : list string)
  : string := metric.


(** Files as read before the date conversion, with timestamps as text; the
    second Benin row has a timestamp that is no date. *)
Definition reading (ts : string) (ghi : Q) : gmap string pd.cell :=
  <["Timestamp" := pd.Str ts]> (<["GHI" := pd.Num ghi]> ∅).

Definition benin_table : pd.DataFrame :=
  {| pd.columns := ["Timestamp"; "GHI"];
     pd.rows := [reading "2023-01-01 00:00" 500; reading "not a date" 300] |}.

Definition togo_table : pd.DataFrame :=
  {| pd.columns := ["Timestamp"; "GHI"];
     pd.rows := [reading "2023-01-01 00:00" 400;
                 reading "2023-01-01 01:00" 450] |}.

Definition disk_read_table (p : string) : result pd.DataFrame :=
  if bool_decide (p = "../data/benin_clean.csv") then Ok benin_table
  else if bool_decide (p = "../data/sierra_leone_clean.csv") then Ok togo_table
  else if bool_decide (p = "../data/togo_clean.csv") then Ok togo_table
  else Raise (ParserError p).

(** A date parser that reads the two hours of the example (as seconds). *)
Definition example_to_datetime (c : pd.cell) : option pd.cell :=
  match c with
  | pd.Str s =>
      if bool_decide (s = "2023-01-01 00:00") then Some (pd.Datetime 0)
      else if bool_decide (s = "2023-01-01 01:00") then Some (pd.Datetime 3600)
      else None
  | pd.NaN => Some pd.NaN
  | pd.Datetime t => Some (pd.Datetime t)
  | pd.Num _ | pd.Inf _ => None
  end.

(** What the loader makes of these files: the Benin table unaltered, the
    others with their timestamps converted. *)
Definition unparsed_dataset : pd.DataFrame :=
  pd.concat
    [pd.setitem benin_table "Country" (pd.Str "Benin");
     pd.setitem (pd.parse_column example_to_datetime "Timestamp" togo_table)
       "Country" (pd.Str "Sierra Leone");
     pd.setitem (pd.parse_column example_to_datetime "Timestamp" togo_table)
       "Country" (pd.Str "Togo")].

(** A disk with the Benin file and a Niger file that exists and cannot be
    read ([disk_read_csv] raises on it). *)
Definition with_niger : list string :=
  ["../data/benin_clean.csv"; "../data/niger_clean.csv"].

(** A reader that differs from [disk_read_csv] on the Sierra Leone file
    only. *)
Definition disk_read_csv_alt (p : string) (parse_dates : list string)
  : result pd.DataFrame :=
  if bool_decide (p = "../data/sierra_leone_clean.csv")
  then Raise (ParserError p)
  else disk_read_csv p parse_dates.

(** The view of the example data for the selection Togo and Niger, and the
    rankings of the example data and of that view. *)
Definition togo_view : pd.DataFrame :=
  match filtered_df example_dataset [pd.Str "Togo"; pd.Str "Niger"] with
  | Ok view => view
  | Raise _ => pd.DataFrame_
  end.

Definition example_ranking : pd.DataFrame :=
  match avg_ghi_ranking exact_arithmetic example_dataset with
  | Ok t => t
  | Raise _ => pd.DataFrame_
  end.

Definition togo_ranking : pd.DataFrame :=
  match avg_ghi_ranking exact_arithmetic togo_view with
  | Ok t => t
  | Raise _ => pd.DataFrame_
  end.

(** A view with two Cleaning values and a [Country] column but without the
    module columns. *)
Definition no_module_columns : pd.DataFrame :=
  {| pd.columns := ["GHI"; "Cleaning"; "Country"];
     pd.rows :=
       [<["GHI" := pd.Num 500]> (<["Cleaning" := pd.Num 0]>
          (<["Country" := pd.Str "Benin"]> ∅));
        <["GHI" := pd.Num 300]> (<["Cleaning" := pd.Num 1]>
          (<["Country" := pd.Str "Benin"]> ∅))] |}.

(** The cleaning-impact table of the example data. *)
Definition example_impact : pd.DataFrame :=
  match cleaning_impact_df exact_arithmetic example_dataset with
  | Ok impact => impact
  | Raise _ => pd.DataFrame_
  end.

(** A view whose [GHI] column holds a text value. *)
Definition text_ghi : pd.DataFrame :=
  {| pd.columns := ["GHI"; "Country"];
     pd.rows := [<["GHI" := pd.Num 500]> (<["Country" := pd.Str "Benin"]> ∅);
                 <["GHI" := pd.Str "n/a"]> (<["Country" := pd.Str "Togo"]> ∅)] |}.

(** A view without a [GHI] column. *)
Definition no_ghi_column : pd.DataFrame :=
  {| pd.columns := ["Timestamp"; "DNI"; "Country"];
     pd.rows := [<["Timestamp" := pd.Datetime 0]> (<["DNI" := pd.Num 100]>
                   (<["Country" := pd.Str "Togo"]> ∅))] |}.

(** * Properties *)

(** ** Sorting and deduplication *)

Section list_helpers.
Context {A : Type}.
Implicit Types (l : list A) (x : A).

Lemma insert_by_perm leb x l : insert_by leb x l ≡ₚ x :: l.
Proof.
  induction l as [|y l IH]; simpl; [done|].
  destruct (leb x y); [done|].
  rewrite IH. apply Permutation_swap.
Qed.

Lemma sort_by_perm leb l : sort_by leb l ≡ₚ l.
Proof.
  induction l as [|x l IH]; simpl; [done|].
  unfold sort_by in *. simpl. by rewrite insert_by_perm, IH.
Qed.

Lemma insert_by_sorted (leb : A → A → bool) x l :
  (∀ a b, leb a b = true ∨ leb b a = true) →
  Sorted (λ a b, leb a b = true) l →
  Sorted (λ a b, leb a b = true) (insert_by leb x l).
Proof.
  intros Htot. induction 1 as [|y l Hl IH Hhd]; simpl.
  - repeat constructor.
  - destruct (leb x y) eqn:Hxy.
    + constructor; [by constructor|by constructor].
    + constructor; [done|].
      destruct Hhd as [|z l Hyz]; simpl.
      * constructor. destruct (Htot x y); congruence.
      * destruct (leb x z); constructor; [|done].
        destruct (Htot x y); congruence.
Qed.

Lemma sort_by_sorted (leb : A → A → bool) l :
  (∀ a b, leb a b = true ∨ leb b a = true) →
  Sorted (λ a b, leb a b = true) (sort_by leb l).
Proof.
  intros Htot. induction l as [|x l IH]; [constructor|].
  by apply insert_by_sorted.
Qed.

Lemma Sorted_weaken (R R' : A → A → Prop) (P : A → Prop) l :
  (∀ a b, P a → P b → R a b → R' a b) →
  Forall P l → Sorted R l → Sorted R' l.
Proof.
  intros HR HP Hs. induction Hs as [|x l Hl IH Hhd]; [constructor|].
  apply Forall_cons in HP as [Hx HP]. constructor; [by apply IH|].
  destruct Hhd as [|y l Hxy]; constructor.
  apply Forall_cons in HP as [Hy _]. by apply HR.
Qed.

Lemma Sorted_app_tail (R : A → A → Prop) l1 l2 :
  Sorted R l1 → Sorted R l2 →
  (∀ a b, a ∈ l1 → b ∈ l2 → R a b) →
  Sorted R (l1 ++ l2).
Proof.
  intros H1 H2 H12. induction H1 as [|x l Hl IH Hhd]; simpl; [done|].
  constructor.
  - apply IH. intros a b Ha. apply H12. by right.
  - destruct Hhd as [|y l Hxy]; simpl.
    + destruct H2 as [|z l2 ? ?]; constructor.
      apply H12; by left.
    + by constructor.
Qed.

(** What has been seen stays in the result. *)
Lemma dedup_from_seen (eqb : A → A → bool) seen l x :
  existsb (eqb x) seen = true →
  existsb (eqb x) (dedup_from eqb seen l) = true.
Proof.
  revert seen. induction l as [|y l IH]; intros seen Hx; simpl; [done|].
  destruct (existsb (eqb y) seen); apply IH; [done|].
  rewrite existsb_app, Hx. done.
Qed.

(** Every element has an equal one in the result. *)
Lemma dedup_from_covers (eqb : A → A → bool) seen l x :
  (∀ a, eqb a a = true) →
  x ∈ l → existsb (eqb x) (dedup_from eqb seen l) = true.
Proof.
  intros Hrefl. revert seen.
  induction l as [|y l IH]; intros seen Hx; [by apply elem_of_nil in Hx|].
  apply elem_of_cons in Hx as [->|Hx]; simpl.
  - destruct (existsb (eqb y) seen) eqn:Hy.
    + by apply dedup_from_seen.
    + apply dedup_from_seen. rewrite existsb_app. simpl.
      rewrite Hrefl. by rewrite orb_true_r.
  - destruct (existsb (eqb y) seen); by apply IH.
Qed.

(** The result holds what was seen and elements of the list, only. *)
Lemma dedup_from_elem (eqb : A → A → bool) seen l x :
  x ∈ dedup_from eqb seen l → x ∈ seen ∨ x ∈ l.
Proof.
  revert seen. induction l as [|y l IH]; intros seen Hx; simpl in *.
  - by left.
  - destruct (existsb (eqb y) seen).
    + destruct (IH _ Hx); [by left|right; by right].
    + destruct (IH _ Hx) as [Hs|Hl]; [|right; by right].
      apply elem_of_app in Hs as [Hs|Hs]; [by left|].
      apply list_elem_of_singleton in Hs as ->. right; by left.
Qed.

(** No two elements of the result are equal. *)
Lemma dedup_from_NoDup (eqb : A → A → bool) seen l :
  (∀ a, eqb a a = true) →
  NoDup seen → NoDup (dedup_from eqb seen l).
Proof.
  intros Hrefl. revert seen.
  induction l as [|y l IH]; intros seen Hnd; simpl; [done|].
  destruct (existsb (eqb y) seen) eqn:Hy; apply IH; [done|].
  apply NoDup_app. split; [done|]. split; [|apply NoDup_singleton].
  intros x Hx Hxy. apply list_elem_of_singleton in Hxy as ->.
  assert (existsb (eqb y) seen = true); [|congruence].
  apply existsb_exists. exists y. split; [by apply list_elem_of_In|done].
Qed.

End list_helpers.

(** ** Values, masks and columns *)

Lemma cell_eqb_refl c : pd.cell_eqb c c = true.
Proof.
  destruct c; simpl; [done|apply Qeq_bool_refl|by apply bool_decide_eq_true..].
Qed.

Lemma cell_eqb_sym a b : pd.cell_eqb a b = pd.cell_eqb b a.
Proof.
  destruct a, b; simpl; try done.
  - apply Qeq_bool_comm.
  - apply bool_decide_ext. naive_solver.
  - apply bool_decide_ext. naive_solver.
  - apply bool_decide_ext. naive_solver.
Qed.

Lemma cell_eqb_trans a b c :
  pd.cell_eqb a b = true → pd.cell_eqb b c = true → pd.cell_eqb a c = true.
Proof.
  destruct a, b, c; simpl; try done.
  - apply Qeq_bool_trans.
  - rewrite !bool_decide_eq_true. congruence.
  - rewrite !bool_decide_eq_true. congruence.
  - rewrite !bool_decide_eq_true. congruence.
Qed.

Lemma cell_leb_total a b : pd.cell_leb a b = true ∨ pd.cell_leb b a = true.
Proof.
  destruct a as [|x|n|x|x], b as [|y|m|y|y]; simpl; auto.
  - destruct (Qlt_le_dec x y) as [H|H].
    + left. apply Qle_bool_iff. by apply Qlt_le_weak.
    + right. by apply Qle_bool_iff.
  - destruct m; auto.
  - destruct n; auto.
  - destruct n, m; auto.
  - apply String.leb_total.
  - destruct (Z.le_ge_cases x y); [left|right]; by apply Z.leb_le.
Qed.


(** A mask computed row by row keeps the rows it accepts. *)
Lemma mask_filter {A} (g : A → bool) (l : list A) :
  map fst (List.filter snd (zip l (map g l))) = List.filter g l.
Proof.
  induction l as [|x l IH]; simpl; [done|].
  destruct (g x); simpl; by rewrite IH.
Qed.

Lemma filter_all {A} (g : A → bool) (l : list A) :
  (∀ x, x ∈ l → g x = true) → List.filter g l = l.
Proof.
  intros Hg. induction l as [|x l IH]; simpl; [done|].
  rewrite Hg by (by left). rewrite IH; [done|].
  intros y Hy. apply Hg. by right.
Qed.

Lemma filter_none {A} (g : A → bool) (l : list A) :
  (∀ x, x ∈ l → g x = false) → List.filter g l = [].
Proof.
  intros Hg. induction l as [|x l IH]; simpl; [done|].
  rewrite Hg by (by left). apply IH. intros y Hy. apply Hg. by right.
Qed.

Lemma getitem_Ok df col :
  col ∈ pd.columns df →
  pd.getitem df col = Ok (map (λ r, pd.cell_at r col) (pd.rows df)).
Proof. intros H. unfold pd.getitem. by rewrite bool_decide_eq_true_2. Qed.

Lemma getitem_Ok_inv df col s :
  pd.getitem df col = Ok s →
  col ∈ pd.columns df ∧ s = map (λ r, pd.cell_at r col) (pd.rows df).
Proof.
  unfold pd.getitem. case_bool_decide; [|done]. intros [= <-]. done.
Qed.

Lemma getitem_KeyError df col :
  col ∉ pd.columns df → pd.getitem df col = Raise (KeyError col).
Proof. intros H. unfold pd.getitem. by rewrite bool_decide_eq_false_2. Qed.

Lemma filtered_df_rows df selected view :
  filtered_df df selected = Ok view →
  pd.columns view = pd.columns df ∧
  pd.rows view =
    List.filter (λ r, existsb (pd.cell_eqb (pd.cell_at r "Country")) selected)
      (pd.rows df).
Proof.
  unfold filtered_df. destruct (pd.getitem df "Country") as [s|] eqn:Hs;
    simpl; [|done].
  apply getitem_Ok_inv in Hs as [_ ->]. intros [= <-]. split; [done|].
  unfold pd.getitem_mask, pd.isin. simpl. rewrite map_map.
  apply (mask_filter
    (λ r, existsb (pd.cell_eqb (pd.cell_at r "Country")) selected)).
Qed.

(** ** The loader *)

Lemma add_column_elem cols col c :
  c ∈ pd.add_column cols col ↔ c ∈ cols ∨ c = col.
Proof.
  unfold pd.add_column. case_bool_decide as H.
  - split; [by left|]. by intros [?| ->].
  - rewrite elem_of_app, list_elem_of_singleton. done.
Qed.

Lemma foldl_add_column_elem cols new c :
  c ∈ foldl pd.add_column cols new ↔ c ∈ cols ∨ c ∈ new.
Proof.
  revert cols. induction new as [|n new IH]; intros cols; simpl.
  - split; [by left|]. intros [?|H]; [done|by apply elem_of_nil in H].
  - rewrite IH, add_column_elem, elem_of_cons. tauto.
Qed.

Lemma union_columns_elem dfs c :
  c ∈ pd.union_columns dfs ↔ ∃ d, d ∈ dfs ∧ c ∈ pd.columns d.
Proof.
  unfold pd.union_columns.
  assert (∀ acc, c ∈ foldl (λ acc d, foldl pd.add_column acc (pd.columns d))
                       acc dfs
                 ↔ c ∈ acc ∨ ∃ d, d ∈ dfs ∧ c ∈ pd.columns d) as H.
  { induction dfs as [|d dfs IH]; intros acc; simpl.
    - split; [by left|]. intros [?|(d & Hd & _)]; [done|].
      by apply elem_of_nil in Hd.
    - rewrite IH, foldl_add_column_elem. split.
      + intros [[?|?]|(d' & ? & ?)]; [by left|right..].
        * exists d. split; [by left|done].
        * exists d'. split; [by right|done].
      + intros [?|(d' & Hd' & ?)]; [left; by left|].
        apply elem_of_cons in Hd' as [->|?]; [left; by right|].
        right. by exists d'. }
  rewrite H. split; [|by right]. intros [Hc|?]; [|done].
  by apply elem_of_nil in Hc.
Qed.

Lemma reindex_lookup cols (r : gmap string pd.cell) c :
  c ∈ cols → pd.reindex cols r !! c = Some (pd.cell_at r c).
Proof.
  induction cols as [|c' cols IH]; intros Hc; [by apply elem_of_nil in Hc|].
  simpl. destruct (decide (c' = c)) as [->|Hne].
  - by rewrite lookup_insert_eq.
  - rewrite lookup_insert_ne by done. apply IH.
    apply elem_of_cons in Hc as [?|?]; [congruence|done].
Qed.

Lemma setitem_country df c :
  "Country" ∈ pd.columns (pd.setitem df "Country" (pd.Str c)) ∧
  length (pd.rows (pd.setitem df "Country" (pd.Str c))) = length (pd.rows df) ∧
  Forall (λ r : gmap string pd.cell, pd.cell_at r "Country" = pd.Str c)
    (pd.rows (pd.setitem df "Country" (pd.Str c))).
Proof.
  split; [|split]; simpl.
  - apply add_column_elem. by right.
  - by rewrite length_map.
  - apply Forall_map, Forall_true. intros r. unfold pd.cell_at.
    by rewrite lookup_insert_eq.
Qed.

Section loader.
Variable os_path_exists : string → bool.
Variable read_csv : string → list string → result pd.DataFrame.

#[local] Abbreviation load_loop := (load_loop os_path_exists read_csv).
#[local] Abbreviation load_files := (load_files os_path_exists read_csv).
#[local] Abbreviation readable := (readable os_path_exists read_csv).

(** With every file readable the loop ends in the concatenation of the
    tagged frames and shows nothing. *)
Lemma load_loop_readable base files frames all_dfs page :
  readable base files frames →
  load_loop base files all_dfs page =
    (page, Ok match all_dfs ++ tag_frames files frames with
              | [] => pd.DataFrame_
              | dfs => pd.concat dfs
              end).
Proof.
  intros Hr. revert all_dfs.
  induction Hr as [|[c f] d files frames [Hex Hrd] Hr IH]; intros all_dfs.
  - simpl. rewrite app_nil_r. by destruct all_dfs.
  - simpl in *. rewrite Hex. unfold mbind, st.App_bind, st.lift.
    rewrite Hrd. rewrite IH. unfold tag_frames. simpl.
    by rewrite <- app_assoc.
Qed.

(** The first missing file ends the loop with its message and the empty
    frame. *)
Lemma load_loop_missing base pre frames c f post all_dfs page :
  readable base pre frames →
  os_path_exists (os_path.join base f) = false →
  load_loop base (pre ++ (c, f) :: post) all_dfs page =
    (page ++ [st.error (missing_file_message c (os_path.join base f))],
     Ok pd.DataFrame_).
Proof.
  intros Hr Hf. revert all_dfs.
  induction Hr as [|[c' f'] d pre frames [Hex Hrd] Hr IH]; intros all_dfs.
  - simpl. rewrite Hf. done.
  - simpl in *. rewrite Hex. unfold mbind, st.App_bind, st.lift.
    rewrite Hrd. apply IH.
Qed.

(** With a file missing, whatever is returned is the empty frame. *)
Lemma load_loop_no_partial base files all_dfs page page' df :
  (∃ cf, cf ∈ files ∧ os_path_exists (os_path.join base cf.2) = false) →
  load_loop base files all_dfs page = (page', Ok df) →
  df = pd.DataFrame_.
Proof.
  revert all_dfs. induction files as [|[c f] files IH];
    intros all_dfs (cf & Hin & Hcf).
  - by apply elem_of_nil in Hin.
  - simpl. destruct (os_path_exists (os_path.join base f)) eqn:Hex.
    + unfold mbind, st.App_bind, st.lift.
      destruct (read_csv _ _) as [d|e]; [|done].
      apply IH. exists cf. split; [|done].
      apply elem_of_cons in Hin as [->|?]; [|done].
      simpl in Hcf. congruence.
    + unfold mbind, st.App_bind, st.show, mret, st.App_ret.
      by intros [= _ <-].
Qed.

(** With a file missing and the files that exist readable, the empty
    frame is returned. *)
Lemma load_loop_missing_returns base files all_dfs page :
  (∃ cf, cf ∈ files ∧ os_path_exists (os_path.join base cf.2) = false) →
  (∀ cf, cf ∈ files → os_path_exists (os_path.join base cf.2) = true →
         ∃ d, read_csv (os_path.join base cf.2) ["Timestamp"] = Ok d) →
  ∃ page', load_loop base files all_dfs page = (page', Ok pd.DataFrame_).
Proof.
  revert all_dfs. induction files as [|[c f] files IH];
    intros all_dfs (cf & Hin & Hcf) Hrd.
  - by apply elem_of_nil in Hin.
  - simpl. destruct (os_path_exists (os_path.join base f)) eqn:Hex.
    + destruct (Hrd (c, f)) as [d Hd]; [by left|done|].
      unfold mbind, st.App_bind, st.lift. simpl in Hd. rewrite Hd.
      apply IH.
      * exists cf. split; [|done].
        apply elem_of_cons in Hin as [->|?]; [|done].
        simpl in Hcf. congruence.
      * intros cf' Hcf'. apply Hrd. by right.
    + by eexists.
Qed.

Lemma tagged_blocks cols files frames :
  length files = length frames →
  "Country" ∈ cols →
  let blocks := map (λ d, map (pd.reindex cols) (pd.rows d))
                  (tag_frames files frames) in
  Forall2 (λ d b, length b = length (pd.rows d)) frames blocks ∧
  Forall2 (λ cf b,
    Forall (λ r : gmap string pd.cell, r !! "Country" = Some (pd.Str cf.1)) b)
    files blocks ∧
  length (List.concat blocks)
    = sum_list (map (λ d, length (pd.rows d)) frames).
Proof.
  intros Hlen Hc. revert frames Hlen.
  induction files as [|cf files IH]; intros [|d frames] Hlen;
    simpl in *; try done.
  destruct (IH frames) as (IH1 & IH2 & IH3); [congruence|].
  destruct (setitem_country d cf.1) as (_ & Hn & Htag).
  split; [|split].
  - constructor; [|done]. by rewrite !length_map.
  - constructor; [|done]. apply Forall_map.
    eapply Forall_impl; [exact Htag|]. intros r Hr. simpl.
    rewrite reindex_lookup by done. by rewrite Hr.
  - rewrite length_app, IH3, !length_map. done.
Qed.

End loader.

(** C1, as amended.  When a configured file does not exist and the files
    configured before it are readable, the loader does not raise: it shows an
    error message naming the first missing country and its path, and returns
    the empty frame. *)
Theorem load_missing_file_reported os_path_exists read_csv
    base pre frames c f post page :
  readable os_path_exists read_csv base pre frames →
  os_path_exists (os_path.join base f) = false →
  load_files os_path_exists read_csv base (pre ++ (c, f) :: post) page =
    (page ++ [st.error (missing_file_message c (os_path.join base f))],
     Ok pd.DataFrame_).
Proof. intros Hr Hf. unfold load_files. by eapply load_loop_missing. Qed.

Lemma load_missing_file_reported_witness :
  load_files (disk_exists without_sierra_leone) disk_read_csv base_path
    ([("Benin", "benin_clean.csv")]
     ++ ("Sierra Leone", "sierra_leone_clean.csv")
     :: [("Togo", "togo_clean.csv")]) [] =
    ([] ++ [st.error (missing_file_message "Sierra Leone"
                        (os_path.join base_path "sierra_leone_clean.csv"))],
     Ok pd.DataFrame_).
Proof.
  apply (load_missing_file_reported (disk_exists without_sierra_leone)
           disk_read_csv base_path [("Benin", "benin_clean.csv")] [benin_csv]).
  - repeat constructor.
  - reflexivity.
Defined.

(** C1, as stated, fails: with the Sierra Leone file missing the loader
    returns normally (the empty frame) instead of raising. *)
Lemma load_missing_file_does_not_raise :
  disk_exists without_sierra_leone
    (os_path.join base_path "sierra_leone_clean.csv") = false ∧
  load_all_cleaned_data (disk_exists without_sierra_leone) disk_read_csv [] =
    ([st.error "Error: Cleaned data file not found for Sierra Leone at ../data/sierra_leone_clean.csv. Please run EDA notebooks first."],
     Ok pd.DataFrame_) ∧
  ¬ ∃ page e,
      load_all_cleaned_data (disk_exists without_sierra_leone) disk_read_csv []
      = (page, Raise e).
Proof.
  assert (load_all_cleaned_data (disk_exists without_sierra_leone)
            disk_read_csv [] =
          ([st.error "Error: Cleaned data file not found for Sierra Leone at ../data/sierra_leone_clean.csv. Please run EDA notebooks first."],
           Ok pd.DataFrame_)) as Hrun by (vm_compute; reflexivity).
  split; [reflexivity|]. split; [exact Hrun|].
  intros (page & e & Hraise). rewrite Hrun in Hraise. discriminate.
Qed.

(** C3.  When the mapping is not empty and every configured file exists and
    is read, the loader returns a frame with as many rows as the files have
    together; its rows come in one block per file, in the order of the
    mapping, each block as long as its file, and each row's [Country] is the
    country configured for the file of its block. *)
Theorem load_size_and_country_tags os_path_exists read_csv
    base files frames page :
  files ≠ [] →
  readable os_path_exists read_csv base files frames →
  ∃ df blocks,
    load_files os_path_exists read_csv base files page = (page, Ok df) ∧
    length (pd.rows df) = sum_list (map (λ d, length (pd.rows d)) frames) ∧
    pd.rows df = List.concat blocks ∧
    Forall2 (λ d b, length b = length (pd.rows d)) frames blocks ∧
    Forall2 (λ cf b,
      Forall (λ r : gmap string pd.cell, r !! "Country" = Some (pd.Str cf.1)) b)
      files blocks.
Proof.
  intros Hne Hr.
  pose proof (Forall2_length _ _ _ Hr) as Hlen.
  set (dfs := tag_frames files frames).
  set (cols := pd.union_columns dfs).
  assert ("Country" ∈ cols) as Hc.
  { apply union_columns_elem. subst dfs.
    destruct files as [|cf files]; [done|].
    destruct frames as [|d frames]; [done|].
    exists (pd.setitem d "Country" (pd.Str cf.1)).
    split; [by left|]. apply setitem_country. }
  destruct (tagged_blocks cols files frames Hlen Hc) as (Hb1 & Hb2 & Hb3).
  exists (pd.concat dfs),
    (map (λ d, map (pd.reindex cols) (pd.rows d)) dfs).
  assert (pd.rows (pd.concat dfs)
          = List.concat (map (λ d, map (pd.reindex cols) (pd.rows d)) dfs))
    as Hrows by apply flat_map_concat_map.
  split; [|split; [|split; [|split]]]; try done.
  - unfold load_files. rewrite (load_loop_readable _ _ _ _ frames) by done.
    simpl. fold dfs. destruct dfs eqn:Hdfs; [|done].
    destruct files; [done|]. destruct frames; done.
  - by rewrite Hrows.
Qed.

Lemma load_size_and_country_tags_witness :
  ∃ df blocks,
    load_files (disk_exists all_three) disk_read_csv base_path country_files []
      = ([], Ok df) ∧
    length (pd.rows df)
      = sum_list (map (λ d, length (pd.rows d))
                    [benin_csv; sierra_leone_csv; togo_csv]) ∧
    pd.rows df = List.concat blocks ∧
    Forall2 (λ d b, length b = length (pd.rows d))
      [benin_csv; sierra_leone_csv; togo_csv] blocks ∧
    Forall2 (λ cf b,
      Forall (λ r : gmap string pd.cell, r !! "Country" = Some (pd.Str cf.1)) b)
      country_files blocks.
Proof.
  apply (load_size_and_country_tags (disk_exists all_three) disk_read_csv
           base_path country_files [benin_csv; sierra_leone_csv; togo_csv]).
  - discriminate.
  - repeat constructor.
Defined.

(** C5.  When some configured file does not exist, no frame other than the
    empty one is returned; and when the files that do exist are readable, the
    empty frame is what the loader returns. *)
Theorem load_with_missing_file_is_empty os_path_exists read_csv
    base files page :
  (∃ cf, cf ∈ files ∧ os_path_exists (os_path.join base cf.2) = false) →
  (∀ page' df,
     load_files os_path_exists read_csv base files page = (page', Ok df) →
     df = pd.DataFrame_) ∧
  ((∀ cf, cf ∈ files → os_path_exists (os_path.join base cf.2) = true →
          ∃ d, read_csv (os_path.join base cf.2) ["Timestamp"] = Ok d) →
   ∃ page',
     load_files os_path_exists read_csv base files page
     = (page', Ok pd.DataFrame_)).
Proof.
  intros Hmiss. split.
  - intros page' df. by apply load_loop_no_partial.
  - by apply load_loop_missing_returns.
Qed.

Lemma load_with_missing_file_is_empty_witness :
  (∀ page' df,
     load_files (disk_exists without_sierra_leone) disk_read_csv base_path
       country_files [] = (page', Ok df) →
     df = pd.DataFrame_) ∧
  ((∀ cf, cf ∈ country_files →
          disk_exists without_sierra_leone (os_path.join base_path cf.2) = true →
          ∃ d, disk_read_csv (os_path.join base_path cf.2) ["Timestamp"] = Ok d) →
   ∃ page',
     load_files (disk_exists without_sierra_leone) disk_read_csv base_path
       country_files [] = (page', Ok pd.DataFrame_)).
Proof.
  apply (load_with_missing_file_is_empty (disk_exists without_sierra_leone)
           disk_read_csv base_path country_files []).
  exists ("Sierra Leone", "sierra_leone_clean.csv").
  split; [|reflexivity]. right. left.
Defined.

(** ** Filtering by country *)

Lemma all_countries_Ok_inv df options :
  all_countries df = Ok options →
  "Country" ∈ pd.columns df ∧
  options = pd.unique (map (λ r, pd.cell_at r "Country") (pd.rows df)).
Proof.
  unfold all_countries.
  destruct (pd.getitem df "Country") as [s|] eqn:Hs; simpl; [|done].
  apply getitem_Ok_inv in Hs as [? ->]. by intros [= <-].
Qed.

Lemma filtered_df_Ok df selected :
  "Country" ∈ pd.columns df →
  filtered_df df selected =
    Ok {| pd.columns := pd.columns df;
          pd.rows := List.filter
            (λ r, existsb (pd.cell_eqb (pd.cell_at r "Country")) selected)
            (pd.rows df) |}.
Proof.
  intros Hc. destruct (filtered_df df selected) as [view|e] eqn:Hv.
  - apply filtered_df_rows in Hv as [Hcols Hrows].
    destruct view; simpl in *; by subst.
  - unfold filtered_df in Hv. by rewrite getitem_Ok in Hv.
Qed.

Lemma empty_no_rows df : pd.rows df = [] → pd.empty df = true.
Proof. unfold pd.empty. intros ->. by destruct (pd.columns df). Qed.

(** C9.  Filtering a frame by all the countries that occur in it keeps every
    row, so the view has the size of the frame. *)
Theorem filter_by_all_countries_keeps_every_row df options :
  all_countries df = Ok options →
  ∃ view, filtered_df df options = Ok view ∧
          pd.rows view = pd.rows df ∧
          length (pd.rows view) = length (pd.rows df).
Proof.
  intros Hopt. apply all_countries_Ok_inv in Hopt as [Hc ->].
  eexists. split; [by apply filtered_df_Ok|]. simpl.
  assert (List.filter
            (λ r, existsb (pd.cell_eqb (pd.cell_at r "Country"))
                    (pd.unique (map (λ r, pd.cell_at r "Country") (pd.rows df))))
            (pd.rows df) = pd.rows df) as ->; [|done].
  apply filter_all. intros r Hr.
  apply dedup_from_covers; [apply cell_eqb_refl|].
  apply list_elem_of_fmap. by exists r.
Qed.

Lemma filter_by_all_countries_keeps_every_row_witness :
  all_countries example_dataset
    = Ok [pd.Str "Benin"; pd.Str "Sierra Leone"; pd.Str "Togo"] ∧
  ∃ view,
    filtered_df example_dataset
      [pd.Str "Benin"; pd.Str "Sierra Leone"; pd.Str "Togo"] = Ok view ∧
    pd.rows view = pd.rows example_dataset ∧
    length (pd.rows view) = length (pd.rows example_dataset).
Proof.
  split; [reflexivity|].
  apply (filter_by_all_countries_keeps_every_row example_dataset).
  reflexivity.
Defined.

(** C7.  Filtering a frame by no country gives a view without rows; the page
    then shows the note asking to select a country, nothing is raised and no
    error is shown. *)
Theorem filter_by_no_country_is_empty_view arith selectbox df :
  "Country" ∈ pd.columns df →
  ∃ view, filtered_df df [] = Ok view ∧
          pd.rows view = [] ∧
          pd.empty view = true ∧
          (pd.empty df = false →
           ∀ page, dashboard arith select_none selectbox df page =
             (page ++ [st.sidebar_header "Filter Options";
                       st.info "Please select at least one country to view data."],
              Ok tt)).
Proof.
  intros Hc. eexists. split; [by apply filtered_df_Ok|]. simpl.
  assert (∀ l : list (gmap string pd.cell),
            List.filter (λ _, false) l = []) as Hnone
    by (intros l; by apply filter_none).
  split; [apply Hnone|]. split.
  { apply empty_no_rows. simpl. apply Hnone. }
  intros Hne page. unfold dashboard. rewrite Hne. simpl.
  unfold mbind, st.App_bind, st.show, st.lift, all_countries. simpl.
  rewrite getitem_Ok by done. simpl.
  unfold select_none. rewrite filtered_df_Ok by done.
  rewrite empty_no_rows by (simpl; apply Hnone). simpl.
  by rewrite <- app_assoc.
Qed.

Lemma filter_by_no_country_is_empty_view_witness :
  ∃ view, filtered_df example_dataset [] = Ok view ∧
          pd.rows view = [] ∧
          pd.empty view = true ∧
          (pd.empty example_dataset = false →
           ∀ page, dashboard exact_arithmetic select_none (choose "GHI")
                     example_dataset page =
             (page ++ [st.sidebar_header "Filter Options";
                       st.info "Please select at least one country to view data."],
              Ok tt)).
Proof.
  apply (filter_by_no_country_is_empty_view exact_arithmetic (choose "GHI")
           example_dataset).
  vm_compute. do 6 right. left.
Defined.

(** ** Means, groups and the ranking *)

Lemma mapM_result_inv {A B} (f : A → result B) l l' :
  mapM f l = Ok l' → Forall2 (λ x y, f x = Ok y) l l'.
Proof.
  revert l'. induction l as [|x l IH]; intros l'; simpl.
  - intros [= <-]. constructor.
  - destruct (f x) as [y|e] eqn:Hx; simpl; [|done].
    destruct (mapM f l) as [k|e] eqn:Hl; simpl; [|done].
    intros [= <-]. constructor; [done|]. by apply IH.
Qed.

Lemma mapM_result_Ok {A B} (f : A → result B) l :
  (∀ x, x ∈ l → ∃ y, f x = Ok y) → ∃ l', mapM f l = Ok l'.
Proof.
  induction l as [|x l IH]; intros Hall; simpl; [by eexists|].
  destruct (Hall x) as [y ->]; [by left|]. simpl.
  destruct IH as [k ->]; [intros z Hz; apply Hall; by right|].
  by eexists.
Qed.

Lemma mapM_result_Raise {A B} (f : A → result B) l e :
  (∃ x, x ∈ l ∧ f x = Raise e) →
  (∀ x e', x ∈ l → f x = Raise e' → e' = e) →
  mapM f l = Raise e.
Proof.
  induction l as [|x l IH]; intros (x0 & Hin & Hx0) Hsame;
    [by apply elem_of_nil in Hin|].
  simpl. destruct (f x) as [y|e'] eqn:Hx; simpl.
  - rewrite IH; [done| |intros z e' Hz; apply Hsame; by right].
    apply elem_of_cons in Hin as [->|Hin]; [congruence|by exists x0].
  - f_equal. apply (Hsame x); [by left|done].
Qed.

Lemma of_float_float_or_missing x : float_or_missing (pd.of_float x).
Proof. by destruct x as [[q|n]|]. Qed.

(** The mean of floats and missing values is returned, and is a float or
    missing. *)
Lemma mean_numeric ar s :
  Forall float_or_missing s →
  ∃ m, pd.mean ar s = Ok m ∧ float_or_missing m.
Proof.
  intros Hs. unfold pd.mean.
  assert (Forall (λ c, is_Some (pd.to_float c)) (pd.dropna s)) as Hfl.
  { apply Forall_forall. intros c Hc.
    apply list_elem_of_In, filter_In in Hc as [Hc Hna].
    rewrite Forall_forall in Hs. apply list_elem_of_In, Hs in Hc.
    destruct c; try done; by eexists. }
  destruct (pd.dropna s) as [|c vals]; [by exists pd.NaN|].
  apply mapM_is_Some in Hfl as [xs ->].
  eexists. split; [done|]. apply of_float_float_or_missing.
Qed.

(** A text value in the group makes the mean raise. *)
Lemma mean_text ar s txt :
  pd.Str txt ∈ s →
  pd.mean ar s
  = Raise (TypeError "agg function failed [how->mean,dtype->object]").
Proof.
  intros Hin. unfold pd.mean.
  assert (pd.Str txt ∈ pd.dropna s) as Hd.
  { apply list_elem_of_In, filter_In. split; [by apply list_elem_of_In|done]. }
  destruct (pd.dropna s) as [|c vals] eqn:Hv; [by apply elem_of_nil in Hd|].
  destruct (mapM pd.to_float (c :: vals)) as [xs|] eqn:Hfl.
  { apply mapM_Some in Hfl. apply list_elem_of_lookup in Hd as [i Hi].
    destruct (Forall2_lookup_l _ _ _ _ _ Hfl Hi) as (x & _ & Hx). done. }
  destruct (mapM pd.to_time (c :: vals)) as [ts|] eqn:Hts; [|done].
  apply mapM_Some in Hts. apply list_elem_of_lookup in Hd as [i Hi].
  destruct (Forall2_lookup_l _ _ _ _ _ Hts Hi) as (x & _ & Hx). done.
Qed.

Lemma zip_select {A K V} (f : A → K) (h : A → V) (g : K → bool) (l : list A) :
  map snd (List.filter (λ p, g p.1) (zip (map f l) (map h l)))
  = map h (List.filter (λ a, g (f a)) l).
Proof.
  induction l as [|a l IH]; simpl; [done|].
  destruct (g (f a)); simpl; by rewrite IH.
Qed.

Lemma select_group_values view by_ col k :
  pd.select k (map (λ r, pd.cell_at r by_) (pd.rows view))
    (map (λ r, pd.cell_at r col) (pd.rows view))
  = group_values view by_ k col.
Proof.
  apply (zip_select (λ r, pd.cell_at r by_) (λ r, pd.cell_at r col)
           (pd.cell_eqb k)).
Qed.

Lemma group_values_numeric view by_ col k :
  numeric_column view col →
  Forall float_or_missing (group_values view by_ k col).
Proof.
  intros Hnum. unfold group_values. apply Forall_map, Forall_forall.
  intros r Hr. apply list_elem_of_In, filter_In in Hr as [Hr _].
  apply Hnum. by apply list_elem_of_In.
Qed.

(** What a returned series of group means is. *)
Lemma groupby_mean_inv ar view by_ col s :
  pd.groupby_mean ar view by_ col = Ok s →
  by_ ∈ pd.columns view ∧ col ∈ pd.columns view ∧
  Forall2 (λ k p, p.1 = k ∧
                  pd.mean ar (group_values view by_ k col) = Ok p.2)
    (pd.group_keys (map (λ r, pd.cell_at r by_) (pd.rows view))) s.
Proof.
  unfold pd.groupby_mean.
  destruct (pd.getitem view by_) as [ks|] eqn:Hk; [|done].
  destruct (pd.getitem view col) as [vs|] eqn:Hv; [|done].
  apply getitem_Ok_inv in Hk as [Hb ->].
  apply getitem_Ok_inv in Hv as [Hc ->]. simpl. intros Hs.
  split; [done|]. split; [done|].
  apply mapM_result_inv in Hs. eapply Forall2_impl; [exact Hs|].
  intros k p. simpl. rewrite select_group_values.
  destruct (pd.mean ar _) as [m|e]; simpl; [|done]. by intros [= <-].
Qed.

Lemma groupby_mean_numeric ar view by_ col :
  by_ ∈ pd.columns view → col ∈ pd.columns view →
  numeric_column view col →
  ∃ s, pd.groupby_mean ar view by_ col = Ok s.
Proof.
  intros Hb Hc Hnum. unfold pd.groupby_mean.
  rewrite (getitem_Ok _ _ Hb), (getitem_Ok _ _ Hc). simpl.
  apply mapM_result_Ok. intros k _. rewrite select_group_values.
  destruct (mean_numeric ar (group_values view by_ k col)) as (m & -> & _);
    [by apply group_values_numeric|].
  by eexists.
Qed.

Lemma group_means_keys {ar view by_ col} {keys : list pd.cell}
    {s : list (pd.cell * pd.cell)} :
  Forall2 (λ k p, p.1 = k ∧
                  pd.mean ar (group_values view by_ k col) = Ok p.2) keys s →
  map fst s = keys.
Proof. induction 1 as [|k p keys s [<- _] _ IH]; simpl; by f_equal. Qed.


Lemma filter_partition_perm {A} (g : A → bool) (l : list A) :
  List.filter (λ x, negb (g x)) l ++ List.filter g l ≡ₚ l.
Proof.
  induction l as [|x l IH]; simpl; [done|].
  destruct (g x); simpl.
  - by rewrite <- Permutation_middle, IH.
  - by rewrite IH.
Qed.

Lemma sort_values_desc_perm s : pd.sort_values_desc s ≡ₚ s.
Proof.
  unfold pd.sort_values_desc. rewrite sort_by_perm.
  apply (filter_partition_perm (λ p, pd.isna p.2)).
Qed.

Lemma cell_leb_mean_ge a b :
  a ≠ pd.NaN → pd.cell_leb b a = true → mean_ge a b.
Proof.
  intros Ha Hle. destruct a, b; simpl in *; try done.
  by apply Qle_bool_iff.
Qed.

(** A series is put in descending order, missing values last. *)
Lemma sort_values_desc_sorted (s : list (pd.cell * pd.cell)) :
  Sorted (λ a b, mean_ge a.2 b.2) (pd.sort_values_desc s).
Proof.
  unfold pd.sort_values_desc. apply Sorted_app_tail.
  - eapply (Sorted_weaken _ _ (λ p, p.2 ≠ pd.NaN));
      [| |apply sort_by_sorted].
    + intros a b Ha _ Hab. by apply cell_leb_mean_ge.
    + apply Forall_forall. intros p Hp. rewrite sort_by_perm in Hp.
      apply list_elem_of_In, filter_In in Hp as [_ Hna].
      intros Hnan. by rewrite Hnan in Hna.
    + intros a b. apply cell_leb_total.
  - induction s as [|p s IH]; simpl; [constructor|].
    destruct (pd.isna p.2) eqn:Hp; [|done].
    constructor; [done|].
    destruct (List.filter _ s) as [|p' l] eqn:Hl; constructor.
    assert (In p' (List.filter (λ p, pd.isna p.2) s)) as Hin
      by (rewrite Hl; by left).
    apply filter_In in Hin as [_ Hna].
    destruct p'.2; try done. by destruct p.2.
  - intros a b _ Hb. apply list_elem_of_In, filter_In in Hb as [_ Hna].
    destruct b.2; try done. by destruct a.2.
Qed.

Lemma Sorted_adjacent {A} (R : A → A → Prop) (l : list A) i a b :
  Sorted R l → l !! i = Some a → l !! S i = Some b → R a b.
Proof.
  intros Hs. revert i. induction Hs as [|x l Hl IH Hhd]; intros i; [done|].
  destruct i as [|i]; simpl.
  - intros [= ->] Hb. destruct Hhd as [|y l Hxy]; [done|].
    simpl in Hb. by injection Hb as ->.
  - apply IH.
Qed.

(** The table made from a sorted series holds its pairs, in order. *)
Lemma ranking_table_of_series (s : list (pd.cell * pd.cell)) :
  ∃ t,
    pd.set_columns (pd.reset_index "Country" "GHI" s)
      ["Country"; "Average GHI ($W/m^2$)"] = Ok t ∧
    pd.columns t = ["Country"; "Average GHI ($W/m^2$)"] ∧
    ranking_pairs t = s.
Proof.
  eexists. split; [reflexivity|]. split; [reflexivity|].
  unfold ranking_pairs. simpl. rewrite !map_map.
  induction s as [|[k v] s IH]; simpl; [done|]. by rewrite IH.
Qed.

Lemma ranking_pairs_columns t :
  pd.columns t = ["Country"; "Average GHI ($W/m^2$)"] →
  pd.getitem t "Country" = Ok (map fst (ranking_pairs t)) ∧
  pd.getitem t "Average GHI ($W/m^2$)" = Ok (map snd (ranking_pairs t)).
Proof.
  intros Hc. unfold pd.getitem, ranking_pairs. rewrite Hc, !map_map.
  split; reflexivity.
Qed.

(** What a returned ranking is: the sorted series of the group means. *)
Lemma avg_ghi_ranking_inv ar view t :
  avg_ghi_ranking ar view = Ok t →
  "Country" ∈ pd.columns view ∧ "GHI" ∈ pd.columns view ∧
  pd.columns t = ["Country"; "Average GHI ($W/m^2$)"] ∧
  ∃ s, ranking_pairs t = pd.sort_values_desc s ∧
       Forall2 (λ k p, p.1 = k ∧
                  pd.mean ar (group_values view "Country" k "GHI") = Ok p.2)
         (pd.group_keys (map (λ r, pd.cell_at r "Country") (pd.rows view))) s.
Proof.
  unfold avg_ghi_ranking.
  destruct (pd.groupby_mean ar view "Country" "GHI") as [s|] eqn:Hs; [|done].
  simpl. intros Ht. apply groupby_mean_inv in Hs as (Hc & Hg & Hs).
  destruct (ranking_table_of_series (pd.sort_values_desc s))
    as (t' & Ht' & Hcols & Hpairs).
  rewrite Ht in Ht'. injection Ht' as <-.
  split; [done|]. split; [done|]. split; [done|]. by exists s.
Qed.

Lemma avg_ghi_ranking_numeric ar view :
  "Country" ∈ pd.columns view → "GHI" ∈ pd.columns view →
  numeric_column view "GHI" →
  ∃ t, avg_ghi_ranking ar view = Ok t.
Proof.
  intros Hc Hg Hnum. unfold avg_ghi_ranking.
  destruct (groupby_mean_numeric ar view "Country" "GHI") as [s ->];
    [done..|].
  simpl. destruct (ranking_table_of_series (pd.sort_values_desc s))
    as (t & Ht & _). by exists t.
Qed.

Lemma unique_dropna_elem cells c :
  c ∈ pd.unique (pd.dropna cells) → c ∈ cells ∧ c ≠ pd.NaN.
Proof.
  intros Hc. apply dedup_from_elem in Hc as [Hc|Hc];
    [by apply elem_of_nil in Hc|].
  apply list_elem_of_In, filter_In in Hc as [Hc Hna].
  split; [by apply list_elem_of_In|]. by intros ->.
Qed.

Lemma unique_dropna_covers cells c :
  c ∈ cells → c ≠ pd.NaN →
  ∃ c', c' ∈ pd.unique (pd.dropna cells) ∧ pd.cell_eqb c c' = true.
Proof.
  intros Hc Hna.
  assert (c ∈ pd.dropna cells) as Hd.
  { apply list_elem_of_In, filter_In. split; [by apply list_elem_of_In|].
    by destruct c. }
  pose proof (dedup_from_covers pd.cell_eqb [] _ c cell_eqb_refl Hd) as Hex.
  apply existsb_exists in Hex as (c' & Hc' & Heq).
  exists c'. split; [by apply list_elem_of_In|done].
Qed.

Lemma group_keys_perm cells :
  pd.group_keys cells ≡ₚ pd.unique (pd.dropna cells).
Proof. apply sort_by_perm. Qed.

Ltac column_present := apply (bool_decide_unpack _); vm_compute; exact I.

(** The GHI column of the example data holds numbers. *)
Lemma example_dataset_numeric_ghi : numeric_column example_dataset "GHI".
Proof.
  intros r Hr.
  assert (pd.cell_at r "GHI"
          ∈ map (λ r, pd.cell_at r "GHI") (pd.rows example_dataset)) as Hin
    by (apply list_elem_of_fmap; by exists r).
  clear Hr.
  assert (map (λ r, pd.cell_at r "GHI") (pd.rows example_dataset)
          = [pd.Num 500; pd.Num 300; pd.Num 300; pd.Num 450]) as Hcol
    by (vm_compute; reflexivity).
  rewrite Hcol in Hin. clear Hcol.
  repeat (apply elem_of_cons in Hin as [->|Hin]); try done.
  by apply elem_of_nil in Hin.
Qed.

(** C8.  For a view whose [GHI] column holds numbers or missing values, the
    ranking is returned and is in descending order of mean: of two adjacent
    rows the first has the larger or equal mean, for two numbers [x] then
    [y] that is [y <= x]; a country without a mean comes last. *)
Theorem ranking_sorted_descending arith view :
  "Country" ∈ pd.columns view → "GHI" ∈ pd.columns view →
  numeric_column view "GHI" →
  ∃ t means,
    avg_ghi_ranking arith view = Ok t ∧
    pd.getitem t "Average GHI ($W/m^2$)" = Ok means ∧
    Sorted mean_ge means ∧
    ∀ i x y, means !! i = Some (pd.Num x) → means !! S i = Some (pd.Num y) →
             (y <= x)%Q.
Proof.
  intros Hc Hg Hnum.
  destruct (avg_ghi_ranking_numeric arith view Hc Hg Hnum) as [t Ht].
  destruct (avg_ghi_ranking_inv _ _ _ Ht) as (_ & _ & Hcols & s & Hpairs & _).
  assert (Sorted mean_ge (map snd (ranking_pairs t))) as Hsorted.
  { rewrite Hpairs.
    apply (Sorted_fmap snd (λ a b, mean_ge a.2 b.2) mean_ge); [done|].
    apply sort_values_desc_sorted. }
  exists t, (map snd (ranking_pairs t)). split; [done|].
  split; [by apply ranking_pairs_columns|]. split; [done|].
  intros i x y Hx Hy.
  apply (Sorted_adjacent mean_ge _ i (pd.Num x) (pd.Num y) Hsorted Hx Hy).
Qed.

Lemma ranking_sorted_descending_witness :
  ∃ t means,
    avg_ghi_ranking exact_arithmetic example_dataset = Ok t ∧
    pd.getitem t "Average GHI ($W/m^2$)" = Ok means ∧
    Sorted mean_ge means ∧
    ∀ i x y, means !! i = Some (pd.Num x) → means !! S i = Some (pd.Num y) →
             (y <= x)%Q.
Proof.
  apply (ranking_sorted_descending exact_arithmetic example_dataset).
  - column_present.
  - column_present.
  - apply example_dataset_numeric_ghi.
Defined.




(** ** The cleaning-impact chart *)


(** Two present values that differ: more than one distinct value. *)
Lemma nunique_two_differ s x y :
  x ∈ s → y ∈ s → x ≠ pd.NaN → y ≠ pd.NaN → pd.cell_eqb x y = false →
  (1 < pd.nunique s)%nat.
Proof.
  intros Hx Hy Hxn Hyn Hxy.
  destruct (unique_dropna_covers s x Hx Hxn) as (u & Hu & Hxu).
  destruct (unique_dropna_covers s y Hy Hyn) as (v & Hv & Hyv).
  unfold pd.nunique. destruct (pd.unique (pd.dropna s)) as [|a [|b l]];
    simpl; [by apply elem_of_nil in Hu| |lia].
  apply list_elem_of_singleton in Hu as ->.
  apply list_elem_of_singleton in Hv as ->.
  rewrite (cell_eqb_sym y a) in Hyv.
  rewrite (cell_eqb_trans x a y Hxu Hyv) in Hxy. done.
Qed.

Lemma zip_map_pair {A B C} (f : A → B) (g : A → C) (l : list A) :
  zip (map f l) (map g l) = map (λ a, (f a, g a)) l.
Proof. induction l as [|a l IH]; simpl; [done|]. by rewrite IH. Qed.

Lemma zip_map_self {A B} (g : A → B) (l : list A) :
  zip l (map g l) = map (λ a, (a, g a)) l.
Proof. induction l as [|a l IH]; simpl; [done|]. by rewrite IH. Qed.

Lemma select2_group_values view k col :
  pd.select2 k
    (zip (map (λ r, pd.cell_at r "Country") (pd.rows view))
         (map (λ r, pd.cell_at r "Cleaning") (pd.rows view)))
    (map (λ r, pd.cell_at r col) (pd.rows view))
  = group_values2 view "Country" "Cleaning" k.1 k.2 col.
Proof.
  rewrite zip_map_pair. unfold pd.select2, group_values2.
  apply (zip_select (λ r, (pd.cell_at r "Country", pd.cell_at r "Cleaning"))
           (λ r, pd.cell_at r col) (pd.pair_eqb k)).
Qed.


Lemma impact_row_group k a b : group_of (impact_row k a b) = k.
Proof.
  destruct k as [c k]. unfold group_of, impact_row, pd.cell_at. simpl.
  rewrite (lookup_insert_ne _ "Cleaning Status" "Country") by done.
  rewrite lookup_insert_eq.
  rewrite (lookup_insert_ne _ "Cleaning Status" "Cleaning") by done.
  rewrite (lookup_insert_ne _ "Country" "Cleaning") by done.
  by rewrite lookup_insert_eq.
Qed.



(** What a returned cleaning-impact table is. *)
Lemma cleaning_impact_df_inv ar view impact :
  cleaning_impact_df ar view = Ok impact →
  "Country" ∈ pd.columns view ∧ "Cleaning" ∈ pd.columns view ∧
  "ModA" ∈ pd.columns view ∧ "ModB" ∈ pd.columns view ∧
  pd.columns impact
    = ["Country"; "Cleaning"; "ModA"; "ModB"; "Cleaning Status"] ∧
  impact_rows_of ar view (pd.group_keys2 (map group_of (pd.rows view)))
    (pd.rows impact).
Proof.
  unfold cleaning_impact_df, pd.groupby2_mean.
  destruct (pd.getitem view "Country") as [k1|] eqn:H1; [|done].
  destruct (pd.getitem view "Cleaning") as [k2|] eqn:H2; [|done].
  destruct (pd.getitem view "ModA") as [v1|] eqn:H3; [|done].
  destruct (pd.getitem view "ModB") as [v2|] eqn:H4; [|done].
  apply getitem_Ok_inv in H1 as [Hc ->]. apply getitem_Ok_inv in H2 as [Hk ->].
  apply getitem_Ok_inv in H3 as [Ha ->]. apply getitem_Ok_inv in H4 as [Hb ->].
  simpl. destruct (mapM _ _) as [rs|] eqn:Hrs; [|done]. simpl.
  unfold pd.getitem. simpl. intros [= <-].
  do 4 (split; [done|]). split; [done|]. simpl.
  apply mapM_result_inv in Hrs. rewrite zip_map_pair in Hrs.
  change (λ a : gmap string pd.cell,
            (pd.cell_at a "Country", pd.cell_at a "Cleaning"))
    with group_of in Hrs.
  unfold impact_rows_of, pd.map_dict. rewrite map_map, zip_map_self, map_map.
  apply Forall2_fmap_r.
  induction Hrs as [|k r keys rs Hr _ IH]; [constructor|].
  constructor; [|exact IH]. clear IH. simpl.
  rewrite <- (zip_map_pair (λ r, pd.cell_at r "Country")
                (λ r, pd.cell_at r "Cleaning")) in Hr.
  rewrite !select2_group_values in Hr.
  destruct (pd.mean ar (group_values2 _ _ _ _ _ "ModA")) as [a|] eqn:Hma;
    [|done].
  simpl in Hr.
  destruct (pd.mean ar (group_values2 _ _ _ _ _ "ModB")) as [b|] eqn:Hmb;
    [|done].
  simpl in Hr. injection Hr as <-. exists a, b.
  split; [done|]. split; [done|]. unfold impact_row.
  assert (∀ m : gmap string pd.cell,
            pd.cell_at (<["Country" := k.1]> (<["Cleaning" := k.2]> m))
              "Cleaning" = k.2) as ->.
  { intros m. unfold pd.cell_at.
    rewrite lookup_insert_ne by done. by rewrite lookup_insert_eq. }
  f_equal. destruct k.2 as [|q| | |]; try reflexivity.
  simpl. destruct (Qeq_bool 0 q); [done|]. by destruct (Qeq_bool 1 q).
Qed.







(** C10.  For a view without a [Cleaning] column the cleaning-impact step
    shows nothing and returns normally; the column, which would raise a
    [KeyError], is not read. *)
Theorem cleaning_chart_without_column arith view :
  "Cleaning" ∉ pd.columns view →
  (∀ page, cleaning_chart arith view page = (page, Ok tt)) ∧
  pd.getitem view "Cleaning" = Raise (KeyError "Cleaning").
Proof.
  intros Hk. split; [|by apply getitem_KeyError].
  intros page. unfold cleaning_chart. by rewrite bool_decide_eq_false_2.
Qed.

Lemma cleaning_chart_without_column_witness :
  (∀ page, cleaning_chart exact_arithmetic no_cleaning_column page
           = (page, Ok tt)) ∧
  pd.getitem no_cleaning_column "Cleaning" = Raise (KeyError "Cleaning").
Proof.
  apply (cleaning_chart_without_column exact_arithmetic no_cleaning_column).
  apply (bool_decide_unpack _). vm_compute. exact I.
Defined.

(** ** Timestamps that do not parse *)

Lemma parse_column_unparsed to_datetime col df r :
  r ∈ pd.rows df → to_datetime (pd.cell_at r col) = None →
  pd.parse_column to_datetime col df = df.
Proof.
  intros Hr Hnone. unfold pd.parse_column.
  destruct (mapM _ _) as [dates|] eqn:Hm; [|done].
  apply mapM_Some in Hm.
  assert (pd.cell_at r col ∈ map (λ r, pd.cell_at r col) (pd.rows df)) as Hin
    by (apply list_elem_of_fmap; by exists r).
  apply list_elem_of_lookup in Hin as [i Hi].
  destruct (Forall2_lookup_l _ _ _ _ _ Hm Hi) as (d & _ & Hd). congruence.
Qed.

Lemma reindex_cell_at cols (r : gmap string pd.cell) col :
  col ∈ cols → pd.cell_at (pd.reindex cols r) col = pd.cell_at r col.
Proof. intros Hc. unfold pd.cell_at at 1. by rewrite reindex_lookup. Qed.

(** The frame read at place [i] is tagged with the country at place [i]. *)
Lemma tag_frames_split files frames i cf d :
  files !! i = Some cf → frames !! i = Some d →
  ∃ pre post,
    tag_frames files frames
    = pre ++ pd.setitem d "Country" (pd.Str cf.1) :: post.
Proof.
  unfold tag_frames. revert frames i.
  induction files as [|cf0 files IH]; intros [|d0 frames] [|i] Hf Hd;
    simpl in *; try done.
  - injection Hf as ->. injection Hd as ->. by eexists [], _.
  - destruct (IH frames i Hf Hd) as (pre & post & ->).
    by exists (pd.setitem d0 "Country" (pd.Str cf0.1) :: pre), post.
Qed.

(** C4, as amended.  A file whose [Timestamp] column holds a value that does
    not parse is read without error, its table unaltered.  When every
    configured file exists and is read, the loader returns a frame that
    holds, in one block and in their order, all the rows of that file: each
    with the file's country and, in every other column of the file, the
    value as read, so the timestamp that did not parse too. *)
Theorem unparsed_timestamp_is_kept os_path_exists read_table to_datetime
    base files frames c f raw r page :
  readable os_path_exists (pd.read_csv read_table to_datetime) base
    files frames →
  (c, f) ∈ files →
  read_table (os_path.join base f) = Ok raw →
  "Timestamp" ∈ pd.columns raw →
  r ∈ pd.rows raw →
  to_datetime (pd.cell_at r "Timestamp") = None →
  pd.read_csv read_table to_datetime (os_path.join base f) ["Timestamp"]
    = Ok raw ∧
  ∃ df before kept after,
    load_files os_path_exists (pd.read_csv read_table to_datetime) base
      files page = (page, Ok df) ∧
    "Timestamp" ∈ pd.columns df ∧
    pd.rows df = before ++ kept ++ after ∧
    Forall2 (λ r0 r' : gmap string pd.cell,
               pd.cell_at r' "Country" = pd.Str c ∧
               ∀ col, col ∈ pd.columns raw → col ≠ "Country" →
                      pd.cell_at r' col = pd.cell_at r0 col)
      (pd.rows raw) kept ∧
    ∃ r', r' ∈ kept ∧
          pd.cell_at r' "Timestamp" = pd.cell_at r "Timestamp".
Proof.
  intros Hrd Hin Hraw Hts Hr Hnone.
  assert (pd.read_csv read_table to_datetime (os_path.join base f)
            ["Timestamp"] = Ok raw) as Hread.
  { unfold pd.read_csv. rewrite Hraw. simpl.
    rewrite bool_decide_eq_true_2 by done. simpl.
    by rewrite (parse_column_unparsed _ _ _ r). }
  split; [done|].
  apply list_elem_of_lookup in Hin as [i Hi].
  destruct (Forall2_lookup_l _ _ _ _ _ Hrd Hi) as (d & Hd & _ & Hd').
  simpl in Hd'. rewrite Hread in Hd'. injection Hd' as <-.
  destruct (tag_frames_split files frames i (c, f) raw Hi Hd)
    as (pre & post & Htag). simpl in Htag.
  set (df := pd.concat (tag_frames files frames)).
  assert ("Timestamp" ∈ pd.columns df) as Hcol.
  { apply union_columns_elem. eexists. split.
    - rewrite Htag. apply elem_of_app. right. left.
    - simpl. apply add_column_elem. by left. }
  assert ("Country" ∈ pd.columns df) as Hcountry.
  { apply union_columns_elem. eexists. split.
    - rewrite Htag. apply elem_of_app. right. left.
    - apply setitem_country. }
  assert (∀ col, col ∈ pd.columns raw → col ∈ pd.columns df) as Hcols.
  { intros col Hc. apply union_columns_elem. eexists. split.
    - rewrite Htag. apply elem_of_app. right. left.
    - simpl. apply add_column_elem. by left. }
  set (keep := λ r0 : gmap string pd.cell,
         pd.reindex (pd.columns df) (<["Country" := pd.Str c]> r0)).
  exists df,
    (flat_map (λ d, map (pd.reindex (pd.columns df)) (pd.rows d)) pre),
    (map keep (pd.rows raw)),
    (flat_map (λ d, map (pd.reindex (pd.columns df)) (pd.rows d)) post).
  split; [|split; [done|split; [|split]]].
  - unfold load_files.
    rewrite (load_loop_readable _ _ _ _ frames) by done. simpl.
    subst df. rewrite Htag. by destruct pre.
  - unfold df at 1, pd.concat. simpl. fold (pd.columns df).
    change (pd.union_columns (tag_frames files frames)) with (pd.columns df).
    rewrite Htag, flat_map_app. simpl. by rewrite map_map.
  - apply Forall2_fmap_r, Forall_Forall2_diag, Forall_forall.
    intros r0 _. unfold keep. split.
    + rewrite reindex_cell_at by done. unfold pd.cell_at.
      by rewrite lookup_insert_eq.
    + intros col Hc Hne. rewrite reindex_cell_at by auto.
      unfold pd.cell_at. by rewrite lookup_insert_ne.
  - exists (keep r). split.
    + apply list_elem_of_fmap. by exists r.
    + unfold keep. rewrite reindex_cell_at by done.
      unfold pd.cell_at. by rewrite lookup_insert_ne.
Qed.

Lemma unparsed_timestamp_is_kept_witness :
  pd.read_csv disk_read_table example_to_datetime
    (os_path.join base_path "benin_clean.csv") ["Timestamp"] = Ok benin_table ∧
  ∃ df before kept after,
    load_files (disk_exists all_three)
      (pd.read_csv disk_read_table example_to_datetime) base_path
      country_files [] = ([], Ok df) ∧
    "Timestamp" ∈ pd.columns df ∧
    pd.rows df = before ++ kept ++ after ∧
    Forall2 (λ r0 r' : gmap string pd.cell,
               pd.cell_at r' "Country" = pd.Str "Benin" ∧
               ∀ col, col ∈ pd.columns benin_table → col ≠ "Country" →
                      pd.cell_at r' col = pd.cell_at r0 col)
      (pd.rows benin_table) kept ∧
    ∃ r', r' ∈ kept ∧
          pd.cell_at r' "Timestamp"
          = pd.cell_at (reading "not a date" 300) "Timestamp".
Proof.
  apply (unparsed_timestamp_is_kept (disk_exists all_three) disk_read_table
           example_to_datetime base_path country_files
           [benin_table;
            pd.parse_column example_to_datetime "Timestamp" togo_table;
            pd.parse_column example_to_datetime "Timestamp" togo_table]
           "Benin" "benin_clean.csv" benin_table
           (reading "not a date" 300) []).
  - repeat constructor.
  - left.
  - reflexivity.
  - left.
  - right. left.
  - reflexivity.
Defined.

(** C4, as stated, fails: the second Benin row has a timestamp that does not
    parse, yet the loader raises nothing and returns all six rows; the Benin
    timestamps stay text, those of the other files become date-times. *)
Lemma load_keeps_unparsed_timestamp :
  example_to_datetime (pd.cell_at (reading "not a date" 300) "Timestamp")
    = None ∧
  load_all_cleaned_data (disk_exists all_three)
    (pd.read_csv disk_read_table example_to_datetime) []
    = ([], Ok unparsed_dataset) ∧
  map (λ r, (pd.cell_at r "Country", pd.cell_at r "Timestamp"))
    (pd.rows unparsed_dataset)
    = [(pd.Str "Benin", pd.Str "2023-01-01 00:00");
       (pd.Str "Benin", pd.Str "not a date");
       (pd.Str "Sierra Leone", pd.Datetime 0);
       (pd.Str "Sierra Leone", pd.Datetime 3600);
       (pd.Str "Togo", pd.Datetime 0);
       (pd.Str "Togo", pd.Datetime 3600)] ∧
  ¬ ∃ page e,
      load_all_cleaned_data (disk_exists all_three)
        (pd.read_csv disk_read_table example_to_datetime) []
      = (page, Raise e).
Proof.
  assert (load_all_cleaned_data (disk_exists all_three)
            (pd.read_csv disk_read_table example_to_datetime) []
          = ([], Ok unparsed_dataset)) as Hrun by (vm_compute; reflexivity).
  split; [reflexivity|]. split; [exact Hrun|].
  split; [vm_compute; reflexivity|].
  intros (page & e & Hraise). rewrite Hrun in Hraise. discriminate Hraise.
Qed.

(** * Further properties of the script *)

(** ** The loader: errors, files read, the frame returned *)

Section loader_more.
Variable os_path_exists : string → bool.
Variable read_csv : string → list string → result pd.DataFrame.

#[local] Abbreviation load_loop' := (load_loop os_path_exists read_csv).
#[local] Abbreviation readable' := (readable os_path_exists read_csv).

Lemma load_loop_read_error base pre frames c f post e all_dfs page :
  readable' base pre frames →
  os_path_exists (os_path.join base f) = true →
  read_csv (os_path.join base f) ["Timestamp"] = Raise e →
  load_loop' base (pre ++ (c, f) :: post) all_dfs page = (page, Raise e).
Proof.
  intros Hr Hex He. revert all_dfs.
  induction Hr as [|[c' f'] d pre frames [Hex' Hrd] Hr IH]; intros all_dfs.
  - simpl. rewrite Hex. unfold mbind, st.App_bind, st.lift. by rewrite He.
  - simpl in *. rewrite Hex'. unfold mbind, st.App_bind, st.lift.
    rewrite Hrd. apply IH.
Qed.

(** A returned frame is the empty one or the concatenation of the tagged
    frames of files that were all read. *)
Lemma load_loop_Ok_inv base files all_dfs page page' df :
  load_loop' base files all_dfs page = (page', Ok df) →
  df = pd.DataFrame_ ∨
  ∃ frames, readable' base files frames ∧
            df = pd.concat (all_dfs ++ tag_frames files frames).
Proof.
  revert all_dfs. induction files as [|[c f] files IH]; intros all_dfs.
  - simpl. destruct all_dfs as [|d0 all_dfs].
    + intros [= _ <-]. by left.
    + intros [= _ <-]. right. exists []. split; [constructor|].
      unfold tag_frames. simpl. by rewrite app_nil_r.
  - simpl. destruct (os_path_exists (os_path.join base f)) eqn:Hex.
    + unfold mbind, st.App_bind, st.lift.
      destruct (read_csv _ _) as [d|e] eqn:Hrd; [|done].
      intros Hrun. destruct (IH _ Hrun) as [->|(frames & Hr & ->)];
        [by left|right].
      exists (d :: frames). split; [by constructor|].
      unfold tag_frames. simpl. by rewrite <- app_assoc.
    + unfold mbind, st.App_bind, st.show, mret, st.App_ret.
      intros [= _ <-]. by left.
Qed.

Lemma concat_rows_elem dfs r :
  r ∈ pd.rows (pd.concat dfs) →
  ∃ d r0, d ∈ dfs ∧ r0 ∈ pd.rows d ∧
          r = pd.reindex (pd.union_columns dfs) r0.
Proof.
  unfold pd.concat. simpl. intros Hr.
  apply list_elem_of_In, in_flat_map in Hr as (d & Hd & Hr).
  apply list_elem_of_In, list_elem_of_fmap in Hr as (r0 & -> & Hr0).
  exists d, r0. split; [by apply list_elem_of_In|done].
Qed.

Lemma tag_frames_elem files frames d :
  d ∈ tag_frames files frames →
  ∃ cf d0, cf ∈ files ∧ d0 ∈ frames ∧
           d = pd.setitem d0 "Country" (pd.Str cf.1).
Proof.
  unfold tag_frames. revert frames.
  induction files as [|cf files IH]; intros [|d0 frames] Hd; simpl in *;
    try (by apply elem_of_nil in Hd).
  apply elem_of_cons in Hd as [->|Hd].
  - exists cf, d0. split; [by left|]. split; [by left|done].
  - destruct (IH _ Hd) as (cf' & d' & ? & ? & ->).
    exists cf', d'. split; [by right|]. split; [by right|done].
Qed.

End loader_more.

(** X1.  A file that exists and that [read_csv] cannot read stops the
    loader: when the files configured before it are read, the reader's
    exception is raised, nothing is shown, and the files after it play no
    part. *)
Theorem load_read_error_propagates os_path_exists read_csv
    base pre frames c f post e page :
  readable os_path_exists read_csv base pre frames →
  os_path_exists (os_path.join base f) = true →
  read_csv (os_path.join base f) ["Timestamp"] = Raise e →
  load_files os_path_exists read_csv base (pre ++ (c, f) :: post) page
    = (page, Raise e).
Proof. intros. unfold load_files. by eapply load_loop_read_error. Qed.

Lemma load_read_error_propagates_witness :
  load_files (disk_exists with_niger) disk_read_csv base_path
    ([("Benin", "benin_clean.csv")] ++ ("Niger", "niger_clean.csv")
     :: [("Togo", "togo_clean.csv")]) []
    = ([], Raise (ParserError "../data/niger_clean.csv")).
Proof.
  apply (load_read_error_propagates (disk_exists with_niger) disk_read_csv
           base_path [("Benin", "benin_clean.csv")] [benin_csv]).
  - repeat constructor.
  - reflexivity.
  - reflexivity.
Defined.

(** X2.  The loader reads no file that does not exist: two readers that
    agree on the configured files that exist give the same run. *)
Theorem load_reads_existing_files_only os_path_exists read1 read2
    base files page :
  (∀ cf, cf ∈ files → os_path_exists (os_path.join base cf.2) = true →
         read1 (os_path.join base cf.2) ["Timestamp"]
         = read2 (os_path.join base cf.2) ["Timestamp"]) →
  load_files os_path_exists read1 base files page
    = load_files os_path_exists read2 base files page.
Proof.
  unfold load_files. generalize (@nil pd.DataFrame) as all_dfs.
  induction files as [|[c f] files IH]; intros all_dfs Hagree; [done|].
  simpl. destruct (os_path_exists (os_path.join base f)) eqn:Hex; [|done].
  unfold mbind, st.App_bind, st.lift.
  pose proof (Hagree (c, f) ltac:(by left) Hex) as Hhd. simpl in Hhd.
  rewrite <- Hhd.
  destruct (read1 _ _) as [d|e]; [|done].
  apply IH. intros cf Hcf. apply Hagree. by right.
Qed.

Lemma load_reads_existing_files_only_witness :
  load_files (disk_exists without_sierra_leone) disk_read_csv base_path
    country_files []
  = load_files (disk_exists without_sierra_leone) disk_read_csv_alt base_path
      country_files [].
Proof.
  apply (load_reads_existing_files_only (disk_exists without_sierra_leone)
           disk_read_csv disk_read_csv_alt base_path country_files []).
  intros cf Hcf Hex.
  repeat (apply elem_of_cons in Hcf as [->|Hcf]);
    [reflexivity|discriminate Hex|reflexivity|by apply elem_of_nil in Hcf].
Defined.

Lemma loaded_rows_tagged os_path_exists read_csv
    base files page page' df :
  load_files os_path_exists read_csv base files page = (page', Ok df) →
  pd.empty df = false →
  "Country" ∈ pd.columns df ∧
  ∀ r, r ∈ pd.rows df →
       ∃ cf, cf ∈ files ∧
             (r : gmap string pd.cell) !! "Country" = Some (pd.Str cf.1).
Proof.
  intros Hrun Hne. unfold load_files in Hrun.
  apply load_loop_Ok_inv in Hrun as [->|(frames & Hr & ->)]; [done|].
  simpl in *.
  assert (∀ r, r ∈ pd.rows (pd.concat (tag_frames files frames)) →
            "Country" ∈ pd.union_columns (tag_frames files frames) ∧
            ∃ cf, cf ∈ files ∧
                  (r : gmap string pd.cell) !! "Country"
                  = Some (pd.Str cf.1)) as Hrows.
  { intros r Hin. apply concat_rows_elem in Hin as (d & r0 & Hd & Hr0 & ->).
    pose proof Hd as Hd'.
    apply tag_frames_elem in Hd' as (cf & d0 & Hcf & _ & ->).
    destruct (setitem_country d0 cf.1) as (Hcol & _ & Htag).
    assert ("Country" ∈ pd.union_columns (tag_frames files frames)) as Hc.
    { apply union_columns_elem. by eexists. }
    split; [done|]. exists cf. split; [done|].
    rewrite reindex_lookup by done.
    rewrite Forall_forall in Htag. by rewrite (Htag r0 Hr0). }
  split; [|intros r Hin; by apply Hrows].
  unfold pd.empty in Hne.
  destruct (pd.rows (pd.concat (tag_frames files frames))) as [|r rs];
    [by destruct (pd.columns (pd.concat (tag_frames files frames)))|].
  destruct (Hrows r) as [Hc _]; [by left|exact Hc].
Qed.

(** X3.  Whatever the disk, a frame returned by the loader that is not empty
    has a [Country] column, and the [Country] of each of its rows is one of
    the configured countries. *)
Theorem loaded_frame_has_configured_countries os_path_exists read_csv
    base files page page' df :
  load_files os_path_exists read_csv base files page = (page', Ok df) →
  pd.empty df = false →
  "Country" ∈ pd.columns df ∧
  ∀ r, r ∈ pd.rows df →
       ∃ cf, cf ∈ files ∧
             (r : gmap string pd.cell) !! "Country" = Some (pd.Str cf.1).
Proof. apply loaded_rows_tagged. Qed.

Lemma loaded_frame_has_configured_countries_witness :
  "Country" ∈ pd.columns example_dataset ∧
  ∀ r, r ∈ pd.rows example_dataset →
       ∃ cf, cf ∈ country_files ∧
             (r : gmap string pd.cell) !! "Country" = Some (pd.Str cf.1).
Proof.
  apply (loaded_frame_has_configured_countries (disk_exists all_three)
           disk_read_csv base_path country_files [] [] example_dataset).
  - vm_compute. reflexivity.
  - reflexivity.
Defined.

Lemma tag_frames_intro files frames d0 :
  length files = length frames → d0 ∈ frames →
  ∃ cf, cf ∈ files ∧
        pd.setitem d0 "Country" (pd.Str cf.1) ∈ tag_frames files frames.
Proof.
  unfold tag_frames. revert frames.
  induction files as [|cf files IH]; intros [|d frames] Hlen Hd; simpl in *;
    try done; try (by apply elem_of_nil in Hd).
  apply elem_of_cons in Hd as [->|Hd].
  - exists cf. split; by left.
  - destruct (IH frames) as (cf' & ? & ?); [congruence|done|].
    exists cf'. split; by right.
Qed.

Lemma flat_map_zip_with {A B C D} (f : A → B → C) (g : C → list D)
    (l1 : list A) (l2 : list B) :
  flat_map g (zip_with f l1 l2) = flat_map (λ p, g (f p.1 p.2)) (zip l1 l2).
Proof.
  revert l2. induction l1 as [|a l1 IH]; intros [|b l2]; simpl; try done.
  by rewrite IH.
Qed.

(** X4.  When every configured file is read, the columns of the loaded frame
    are [Country] and the columns of the files; its rows are the rows of the
    files, file after file in the order of the mapping and in their order
    inside each file; each row has its country in [Country] and, in every
    other column, the value it has in its file (missing when the file has no
    such value). *)
Theorem loaded_rows_keep_file_values os_path_exists read_csv
    base files frames page :
  files ≠ [] →
  readable os_path_exists read_csv base files frames →
  ∃ df,
    load_files os_path_exists read_csv base files page = (page, Ok df) ∧
    (∀ col, col ∈ pd.columns df ↔
            col = "Country" ∨ ∃ d, d ∈ frames ∧ col ∈ pd.columns d) ∧
    pd.rows df =
      flat_map (λ p : (string * string) * pd.DataFrame,
                  map (λ r, pd.reindex (pd.columns df)
                              (<["Country" := pd.Str p.1.1]> r))
                    (pd.rows p.2))
        (zip files frames) ∧
    ∀ c (r : gmap string pd.cell) col,
      col ∈ pd.columns df →
      pd.cell_at (pd.reindex (pd.columns df) (<["Country" := pd.Str c]> r)) col
      = if bool_decide (col = "Country") then pd.Str c else pd.cell_at r col.
Proof.
  intros Hne Hr. pose proof (Forall2_length _ _ _ Hr) as Hlen.
  exists (pd.concat (tag_frames files frames)).
  split; [|split; [|split]].
  - unfold load_files. rewrite (load_loop_readable _ _ _ _ frames) by done.
    simpl. destruct (tag_frames files frames) eqn:Ht; [|done].
    destruct files; [done|]. destruct frames; done.
  - intros col. simpl. rewrite union_columns_elem. split.
    + intros (d & Hd & Hcol).
      apply tag_frames_elem in Hd as (cf & d0 & _ & Hd0 & ->).
      simpl in Hcol. apply add_column_elem in Hcol as [?|?]; [right|by left].
      by exists d0.
    + intros [->|(d0 & Hd0 & Hcol)].
      * destruct files as [|cf files]; [done|].
        destruct frames as [|d0 frames]; [done|].
        exists (pd.setitem d0 "Country" (pd.Str cf.1)).
        split; [by left|]. apply setitem_country.
      * destruct (tag_frames_intro files frames d0 Hlen Hd0) as (cf & _ & Hin).
        eexists. split; [exact Hin|]. simpl. apply add_column_elem. by left.
  - unfold pd.concat at 1. simpl. unfold tag_frames.
    rewrite flat_map_zip_with. apply flat_map_ext. intros [cf d]. simpl.
    by rewrite map_map.
  - intros c r col Hcol. rewrite reindex_cell_at by done.
    unfold pd.cell_at. case_bool_decide as Hc.
    + subst col. by rewrite lookup_insert_eq.
    + by rewrite lookup_insert_ne.
Qed.

Lemma loaded_rows_keep_file_values_witness :
  ∃ df,
    load_files (disk_exists all_three) disk_read_csv base_path country_files []
      = ([], Ok df) ∧
    (∀ col, col ∈ pd.columns df ↔
            col = "Country" ∨
            ∃ d, d ∈ [benin_csv; sierra_leone_csv; togo_csv] ∧
                 col ∈ pd.columns d) ∧
    pd.rows df =
      flat_map (λ p : (string * string) * pd.DataFrame,
                  map (λ r, pd.reindex (pd.columns df)
                              (<["Country" := pd.Str p.1.1]> r))
                    (pd.rows p.2))
        (zip country_files [benin_csv; sierra_leone_csv; togo_csv]) ∧
    ∀ c (r : gmap string pd.cell) col,
      col ∈ pd.columns df →
      pd.cell_at (pd.reindex (pd.columns df) (<["Country" := pd.Str c]> r)) col
      = if bool_decide (col = "Country") then pd.Str c else pd.cell_at r col.
Proof.
  apply (loaded_rows_keep_file_values (disk_exists all_three) disk_read_csv
           base_path country_files [benin_csv; sierra_leone_csv; togo_csv]).
  - discriminate.
  - repeat constructor.
Defined.

(** ** The page as a whole *)

(** X5.  When a configured file is missing (the files before it being read),
    the page is the title, the error naming the missing file and the "No
    data loaded" warning; the script ends normally and no widget is asked. *)
Theorem main_with_missing_file os_path_exists read_csv arith multiselect
    selectbox
    pre frames c f post page :
  country_files = pre ++ (c, f) :: post →
  readable os_path_exists read_csv base_path pre frames →
  os_path_exists (os_path.join base_path f) = false →
  main os_path_exists read_csv arith multiselect selectbox page =
    (page ++
       [st.page_config "wide";
        st.title "Cross-Country Solar Farm Analysis Dashboard";
        st.error (missing_file_message c (os_path.join base_path f));
        st.warning "No data loaded. Please ensure the EDA notebooks were run successfully and cleaned CSVs are in the 'data/' directory."],
     Ok tt).
Proof.
  intros Hfiles Hr Hf. unfold main, load_all_cleaned_data, load_files.
  rewrite Hfiles. unfold mbind, st.App_bind, st.show at 1 2.
  rewrite (load_loop_missing _ _ _ _ frames) by done.
  unfold dashboard. simpl. unfold st.show.
  by rewrite <- !app_assoc.
Qed.

Lemma main_with_missing_file_witness :
  main (disk_exists without_sierra_leone) disk_read_csv exact_arithmetic
    keep_default (choose "GHI") [] =
    ([] ++
       [st.page_config "wide";
        st.title "Cross-Country Solar Farm Analysis Dashboard";
        st.error (missing_file_message "Sierra Leone"
                    (os_path.join base_path "sierra_leone_clean.csv"));
        st.warning "No data loaded. Please ensure the EDA notebooks were run successfully and cleaned CSVs are in the 'data/' directory."],
     Ok tt).
Proof.
  apply (main_with_missing_file (disk_exists without_sierra_leone)
           disk_read_csv exact_arithmetic keep_default (choose "GHI")
           [("Benin", "benin_clean.csv")] [benin_csv]
           "Sierra Leone" "sierra_leone_clean.csv"
           [("Togo", "togo_clean.csv")] []).
  - reflexivity.
  - repeat constructor.
  - reflexivity.
Defined.

(** ** The country filter *)

Lemma filter_sublist {A} (g : A → bool) (l : list A) :
  List.filter g l `sublist_of` l.
Proof.
  induction l as [|x l IH]; simpl; [constructor|].
  destruct (g x); by constructor.
Qed.

Lemma filter_filter_comm {A} (g h : A → bool) (l : list A) :
  List.filter g (List.filter h l) = List.filter h (List.filter g l).
Proof.
  induction l as [|x l IH]; simpl; [done|].
  destruct (g x) eqn:Hg, (h x) eqn:Hh; simpl; rewrite ?Hg, ?Hh, IH; done.
Qed.

Lemma filter_filter_same {A} (g : A → bool) (l : list A) :
  List.filter g (List.filter g l) = List.filter g l.
Proof.
  induction l as [|x l IH]; simpl; [done|].
  destruct (g x) eqn:Hg; simpl; rewrite ?Hg, IH; done.
Qed.

Lemma filtered_df_all df :
  "Country" ∈ pd.columns df →
  filtered_df df (pd.unique (map (λ r, pd.cell_at r "Country") (pd.rows df)))
  = Ok df.
Proof.
  intros Hc. rewrite filtered_df_Ok by done. destruct df as [cols rs].
  simpl. f_equal. f_equal. apply filter_all. intros r Hr.
  apply dedup_from_covers; [apply cell_eqb_refl|].
  apply list_elem_of_fmap. by exists r.
Qed.

(** X6.  A view has the columns of the frame it is taken from; its rows are
    rows of that frame in their original order; a row is in the view exactly
    when its [Country] equals one of the selected values. *)
Theorem filtered_view_rows df selected view :
  filtered_df df selected = Ok view →
  pd.columns view = pd.columns df ∧
  pd.rows view `sublist_of` pd.rows df ∧
  ∀ r, r ∈ pd.rows view ↔
       r ∈ pd.rows df ∧
       ∃ s, s ∈ selected ∧ pd.cell_eqb (pd.cell_at r "Country") s = true.
Proof.
  intros Hv. apply filtered_df_rows in Hv as [Hcols Hrows].
  split; [done|]. rewrite Hrows. split; [apply filter_sublist|].
  intros r. rewrite list_elem_of_In, filter_In, existsb_exists.
  rewrite <- list_elem_of_In. split.
  - intros [Hr (s & Hs & Heq)]. split; [done|].
    exists s. split; [by apply list_elem_of_In|done].
  - intros [Hr (s & Hs & Heq)]. split; [done|].
    exists s. split; [by apply list_elem_of_In|done].
Qed.

Lemma filtered_view_rows_witness :
  ∃ view,
    filtered_df example_dataset [pd.Str "Togo"] = Ok view ∧
    pd.columns view = pd.columns example_dataset ∧
    pd.rows view `sublist_of` pd.rows example_dataset ∧
    ∀ r, r ∈ pd.rows view ↔
         r ∈ pd.rows example_dataset ∧
         ∃ s, s ∈ [pd.Str "Togo"] ∧
              pd.cell_eqb (pd.cell_at r "Country") s = true.
Proof.
  eexists. split; [vm_compute; reflexivity|].
  apply (filtered_view_rows example_dataset [pd.Str "Togo"]).
  vm_compute. reflexivity.
Defined.

(** X7.  Filtering a view again by the same selection changes nothing, and
    filtering by two selections one after the other gives the same view in
    either order. *)
Theorem filter_again df s1 s2 v1 :
  filtered_df df s1 = Ok v1 →
  filtered_df v1 s1 = Ok v1 ∧
  ∃ v2 v12, filtered_df df s2 = Ok v2 ∧
            filtered_df v1 s2 = Ok v12 ∧
            filtered_df v2 s1 = Ok v12.
Proof.
  intros Hv1.
  assert ("Country" ∈ pd.columns df) as Hc.
  { unfold filtered_df in Hv1.
    destruct (pd.getitem df "Country") eqn:Hg; [|done].
    by apply getitem_Ok_inv in Hg as [? _]. }
  rewrite filtered_df_Ok in Hv1 by done. injection Hv1 as <-.
  split.
  - rewrite filtered_df_Ok by done. simpl. by rewrite filter_filter_same.
  - eexists _, _. split; [by apply filtered_df_Ok|].
    split; [by apply filtered_df_Ok|].
    rewrite filtered_df_Ok by done. simpl. by rewrite filter_filter_comm.
Qed.

Lemma filter_again_witness :
  ∃ v1,
    filtered_df example_dataset [pd.Str "Togo"; pd.Str "Benin"] = Ok v1 ∧
    filtered_df v1 [pd.Str "Togo"; pd.Str "Benin"] = Ok v1 ∧
    ∃ v2 v12,
      filtered_df example_dataset [pd.Str "Benin"; pd.Str "Sierra Leone"]
        = Ok v2 ∧
      filtered_df v1 [pd.Str "Benin"; pd.Str "Sierra Leone"] = Ok v12 ∧
      filtered_df v2 [pd.Str "Togo"; pd.Str "Benin"] = Ok v12.
Proof.
  eexists. split; [vm_compute; reflexivity|].
  apply (filter_again example_dataset [pd.Str "Togo"; pd.Str "Benin"]
           [pd.Str "Benin"; pd.Str "Sierra Leone"]).
  vm_compute. reflexivity.
Defined.

(** X8.  With the default selection (every country of the data) and a frame
    that is not empty, the view is the whole frame: the page shows the
    filter header and then the charts, the ranking and the cleaning chart of
    the whole frame, never the note asking to select a country. *)
Theorem dashboard_default_selection arith selectbox df page :
  "Country" ∈ pd.columns df →
  pd.empty df = false →
  dashboard arith keep_default selectbox df page =
    (st.show (st.sidebar_header "Filter Options");;
     metric_charts df (selectbox "Select Metric for Analysis:" metric_options);;
     ranking_table arith df;;
     cleaning_chart arith df) page.
Proof.
  intros Hc Hne. unfold dashboard. rewrite Hne. simpl.
  unfold mbind at 1 2 3 4. unfold st.App_bind at 1 2 3 4.
  unfold st.show at 1 2. unfold st.lift, all_countries.
  rewrite getitem_Ok by done. simpl.
  unfold keep_default. rewrite filtered_df_all by done. rewrite Hne. simpl.
  reflexivity.
Qed.

Lemma dashboard_default_selection_witness :
  dashboard exact_arithmetic keep_default (choose "GHI") example_dataset [] =
    (st.show (st.sidebar_header "Filter Options");;
     metric_charts example_dataset
       (choose "GHI" "Select Metric for Analysis:" metric_options);;
     ranking_table exact_arithmetic example_dataset;;
     cleaning_chart exact_arithmetic example_dataset) [].
Proof.
  apply (dashboard_default_selection exact_arithmetic (choose "GHI")
           example_dataset []).
  - column_present.
  - reflexivity.
Defined.

(** ** The charts of the selected metric *)

Lemma px_check_columns_Ok data cols :
  Forall (λ c, c ∈ pd.columns data) cols → px.check_columns data cols = Ok tt.
Proof.
  intros Hall. unfold px.check_columns.
  destruct (List.find _ cols) as [c|] eqn:Hf; [|done].
  apply find_some in Hf as [Hin Hc]. rewrite Forall_forall in Hall.
  apply list_elem_of_In, Hall in Hin. by rewrite bool_decide_eq_true_2 in Hc.
Qed.

(** X9.  For every metric on offer whose column is in the view, which also
    has its [Country] and [Timestamp] columns, the page gets the box plot of
    the metric by country and its time series, each under its heading; the
    unit in the axis label of the box plot is always empty. *)
Theorem metric_charts_shown view metric page :
  metric ∈ metric_options →
  metric ∈ pd.columns view →
  "Country" ∈ pd.columns view →
  "Timestamp" ∈ pd.columns view →
  metric_charts view metric page =
    (page ++
       [st.subheader ("Distribution of " +:+ metric
                      +:+ " Across Selected Countries");
        st.plotly_chart
          (px.Box view "Country" metric "Country"
             (metric +:+ " Distribution") [(metric, metric +:+ " ()")]) true;
        st.subheader ("Time Series of " +:+ metric);
        st.plotly_chart
          (px.Line view "Timestamp" metric "Country"
             (metric +:+ " Over Time")) true],
     Ok tt).
Proof.
  intros Hm Hcol Hc Ht. unfold metric_charts.
  assert (str_in "(" metric = false) as Hunit.
  { unfold metric_options in Hm.
    repeat (apply elem_of_cons in Hm as [->|Hm]); try reflexivity.
    by apply elem_of_nil in Hm. }
  rewrite Hunit. unfold px.box, px.line.
  rewrite !px_check_columns_Ok by (repeat constructor; done).
  unfold mbind, st.App_bind, st.show, st.lift, result_bind.
  rewrite (getitem_Ok _ _ Hcol). simpl. by rewrite <- !app_assoc.
Qed.

Lemma metric_charts_shown_witness :
  metric_charts example_dataset "DNI" [] =
    ([] ++
       [st.subheader ("Distribution of " +:+ "DNI"
                      +:+ " Across Selected Countries");
        st.plotly_chart
          (px.Box example_dataset "Country" "DNI" "Country"
             ("DNI" +:+ " Distribution") [("DNI", "DNI" +:+ " ()")]) true;
        st.subheader ("Time Series of " +:+ "DNI");
        st.plotly_chart
          (px.Line example_dataset "Timestamp" "DNI" "Country"
             ("DNI" +:+ " Over Time")) true],
     Ok tt).
Proof.
  apply (metric_charts_shown example_dataset "DNI" []); column_present.
Defined.

(** X10.  When the view is not empty and has no column for the selected
    metric, the page stops right after the heading of the box plot with a
    [KeyError] for that metric: no chart, no ranking and no cleaning chart
    are shown. *)
Theorem dashboard_missing_metric_column arith multiselect selectbox
    df options view page :
  pd.empty df = false →
  all_countries df = Ok options →
  filtered_df df (multiselect "Select Countries:" options options) = Ok view →
  pd.empty view = false →
  selectbox "Select Metric for Analysis:" metric_options ∉ pd.columns df →
  dashboard arith multiselect selectbox df page =
    (page ++
       [st.sidebar_header "Filter Options";
        st.subheader
          ("Distribution of "
           +:+ selectbox "Select Metric for Analysis:" metric_options
           +:+ " Across Selected Countries")],
     Raise (KeyError (selectbox "Select Metric for Analysis:" metric_options))).
Proof.
  intros Hne Hopt Hview Hvne Hm. unfold dashboard. rewrite Hne. simpl.
  unfold mbind at 1 2 3. unfold st.App_bind at 1 2 3.
  unfold st.show at 1. unfold st.lift at 1 2. rewrite Hopt, Hview, Hvne. simpl.
  apply filtered_df_rows in Hview as [Hcols _].
  unfold mbind at 1 2. unfold st.App_bind at 1 2. unfold metric_charts.
  unfold mbind at 1 2. unfold st.App_bind at 1 2.
  unfold st.show at 1. unfold st.lift at 1.
  rewrite getitem_KeyError by (by rewrite Hcols).
  by rewrite <- app_assoc.
Qed.

Lemma dashboard_missing_metric_column_witness :
  dashboard exact_arithmetic keep_default (choose "DNI") no_cleaning_column
    [] =
    ([] ++
       [st.sidebar_header "Filter Options";
        st.subheader
          ("Distribution of "
           +:+ choose "DNI" "Select Metric for Analysis:" metric_options
           +:+ " Across Selected Countries")],
     Raise (KeyError
              (choose "DNI" "Select Metric for Analysis:" metric_options))).
Proof.
  apply (dashboard_missing_metric_column exact_arithmetic keep_default
           (choose "DNI")
           no_cleaning_column [pd.Str "Benin"] no_cleaning_column []).
  - reflexivity.
  - reflexivity.
  - reflexivity.
  - reflexivity.
  - apply (bool_decide_unpack _). vm_compute. exact I.
Defined.

(** ** The ranking *)

(** The countries of a returned ranking are the distinct present countries
    of the view. *)
Lemma ranking_countries_perm ar view t :
  avg_ghi_ranking ar view = Ok t →
  map fst (ranking_pairs t)
  ≡ₚ pd.unique (pd.dropna (map (λ r, pd.cell_at r "Country") (pd.rows view))).
Proof.
  intros Ht.
  destruct (avg_ghi_ranking_inv _ _ _ Ht) as (_ & _ & _ & s & Hpairs & Hs).
  rewrite Hpairs, sort_values_desc_perm, (group_means_keys Hs).
  apply group_keys_perm.
Qed.

Lemma ranking_countries ar view t c :
  avg_ghi_ranking ar view = Ok t →
  c ∈ map fst (ranking_pairs t) →
  c ≠ pd.NaN ∧ ∃ r, r ∈ pd.rows view ∧ pd.cell_at r "Country" = c.
Proof.
  intros Ht Hin. rewrite (ranking_countries_perm _ _ _ Ht) in Hin.
  apply unique_dropna_elem in Hin as [Hin Hna]. split; [done|].
  apply list_elem_of_fmap in Hin as (r & -> & Hr). by exists r.
Qed.

(** X11.  The ranking of a filtered view lists selected countries only:
    every country in the table is present and equals one of the selected
    values. *)
Theorem ranking_lists_selected_countries arith df selected view t :
  filtered_df df selected = Ok view →
  avg_ghi_ranking arith view = Ok t →
  ∀ c, c ∈ map fst (ranking_pairs t) →
       c ≠ pd.NaN ∧ ∃ s, s ∈ selected ∧ pd.cell_eqb c s = true.
Proof.
  intros Hv Ht c Hc.
  destruct (ranking_countries _ _ _ _ Ht Hc) as (Hna & r & Hr & <-).
  split; [done|].
  apply filtered_df_rows in Hv as [_ Hrows]. rewrite Hrows in Hr.
  apply list_elem_of_In, filter_In in Hr as [_ Hsel].
  apply existsb_exists in Hsel as (s & Hs & Heq).
  exists s. split; [by apply list_elem_of_In|done].
Qed.

Lemma ranking_lists_selected_countries_witness :
  pd.Str "Togo" ≠ pd.NaN ∧
  ∃ s, s ∈ [pd.Str "Togo"; pd.Str "Niger"] ∧
       pd.cell_eqb (pd.Str "Togo") s = true.
Proof.
  apply (ranking_lists_selected_countries exact_arithmetic example_dataset
           [pd.Str "Togo"; pd.Str "Niger"] togo_view togo_ranking).
  - vm_compute. reflexivity.
  - vm_compute. reflexivity.
  - assert (map fst (ranking_pairs togo_ranking) = [pd.Str "Togo"]) as ->
      by (vm_compute; reflexivity).
    left.
Defined.

(** X13.  The ranking has one row per distinct country of the view, missing
    countries not counted: as many rows as [nunique] of the [Country]
    column. *)
Theorem ranking_has_one_row_per_country arith view t countries :
  avg_ghi_ranking arith view = Ok t →
  pd.getitem view "Country" = Ok countries →
  length (pd.rows t) = pd.nunique countries.
Proof.
  intros Ht Hc. apply getitem_Ok_inv in Hc as [_ ->].
  assert (length (pd.rows t) = length (map fst (ranking_pairs t))) as ->
    by (unfold ranking_pairs; by rewrite !length_map).
  by rewrite (ranking_countries_perm _ _ _ Ht).
Qed.

Lemma ranking_has_one_row_per_country_witness :
  length (pd.rows example_ranking)
  = pd.nunique [pd.Str "Benin"; pd.Str "Benin"; pd.Str "Sierra Leone";
                pd.Str "Togo"].
Proof.
  apply (ranking_has_one_row_per_country exact_arithmetic example_dataset
           example_ranking).
  - vm_compute. reflexivity.
  - vm_compute. reflexivity.
Defined.

(** X14.  When the view has no [GHI] column the ranking step shows its
    heading and the note that GHI is not available, no table, and returns
    normally; computing the ranking would have raised a [KeyError]. *)
Theorem ranking_without_ghi arith view page :
  "GHI" ∉ pd.columns view →
  ranking_table arith view page =
    (page ++ [st.subheader "Average GHI Ranking (Selected Countries)";
              st.info "GHI data not available for ranking in filtered selection."],
     Ok tt) ∧
  shown_tables (ranking_table arith view page).1 = shown_tables page ∧
  ("Country" ∈ pd.columns view →
   avg_ghi_ranking arith view = Raise (KeyError "GHI")).
Proof.
  intros Hg.
  assert (ranking_table arith view page =
            (page ++ [st.subheader "Average GHI Ranking (Selected Countries)";
                      st.info "GHI data not available for ranking in filtered selection."],
             Ok tt)) as Hrun.
  { unfold ranking_table. rewrite bool_decide_eq_false_2 by done.
    unfold mbind, st.App_bind, st.show. simpl. by rewrite <- app_assoc. }
  split; [done|]. split.
  - rewrite Hrun. simpl. unfold shown_tables. rewrite omap_app. simpl.
    by rewrite app_nil_r.
  - intros Hc. unfold avg_ghi_ranking, pd.groupby_mean.
    rewrite (getitem_Ok _ _ Hc), (getitem_KeyError _ _ Hg). done.
Qed.

Lemma ranking_without_ghi_witness :
  ranking_table exact_arithmetic no_ghi_column [] =
    ([] ++ [st.subheader "Average GHI Ranking (Selected Countries)";
            st.info "GHI data not available for ranking in filtered selection."],
     Ok tt) ∧
  shown_tables (ranking_table exact_arithmetic no_ghi_column []).1
    = shown_tables [] ∧
  ("Country" ∈ pd.columns no_ghi_column →
   avg_ghi_ranking exact_arithmetic no_ghi_column = Raise (KeyError "GHI")).
Proof.
  apply (ranking_without_ghi exact_arithmetic no_ghi_column []).
  apply (bool_decide_unpack _). vm_compute. exact I.
Defined.

Lemma mean_Raise_inv ar s e :
  pd.mean ar s = Raise e →
  e = TypeError "agg function failed [how->mean,dtype->object]".
Proof.
  unfold pd.mean. destruct (pd.dropna s) as [|c vals]; [done|].
  destruct (mapM pd.to_float (c :: vals)); [done|].
  destruct (mapM pd.to_time (c :: vals)); [done|]. by intros [= <-].
Qed.

(** X21.  A text value in the [GHI] column, in a row that has a country,
    makes the ranking raise a [TypeError]: the ranking step shows its
    heading and stops there, no table is shown. *)
Theorem ranking_text_ghi_raises arith view r txt page :
  "Country" ∈ pd.columns view → "GHI" ∈ pd.columns view →
  r ∈ pd.rows view →
  pd.cell_at r "Country" ≠ pd.NaN →
  pd.cell_at r "GHI" = pd.Str txt →
  avg_ghi_ranking arith view
    = Raise (TypeError "agg function failed [how->mean,dtype->object]") ∧
  ranking_table arith view page =
    (page ++ [st.subheader "Average GHI Ranking (Selected Countries)"],
     Raise (TypeError "agg function failed [how->mean,dtype->object]")).
Proof.
  intros Hc Hg Hr Hna Htxt.
  assert (avg_ghi_ranking arith view
          = Raise (TypeError "agg function failed [how->mean,dtype->object]"))
    as Hrank.
  { unfold avg_ghi_ranking, pd.groupby_mean.
    rewrite (getitem_Ok _ _ Hc), (getitem_Ok _ _ Hg). simpl.
    rewrite (mapM_result_Raise _ _
               (TypeError "agg function failed [how->mean,dtype->object]"));
      [done| |].
    - destruct (unique_dropna_covers
                  (map (λ r, pd.cell_at r "Country") (pd.rows view))
                  (pd.cell_at r "Country")) as (k & Hk & Heq); [|done|].
      { apply list_elem_of_fmap. by exists r. }
      exists k. split; [by rewrite group_keys_perm|].
      rewrite select_group_values.
      rewrite (mean_text _ _ txt); [done|].
      unfold group_values. apply list_elem_of_fmap. exists r.
      split; [done|]. apply list_elem_of_In, filter_In.
      split; [by apply list_elem_of_In|]. by rewrite cell_eqb_sym.
    - intros k e _. destruct (pd.mean arith _) as [m|e0] eqn:Hm; [done|].
      simpl. intros [= <-]. by apply mean_Raise_inv in Hm. }
  split; [done|].
  unfold ranking_table. rewrite bool_decide_eq_true_2 by done.
  unfold mbind, st.App_bind, st.show, st.lift. simpl. by rewrite Hrank.
Qed.

Lemma ranking_text_ghi_raises_witness :
  avg_ghi_ranking exact_arithmetic text_ghi
    = Raise (TypeError "agg function failed [how->mean,dtype->object]") ∧
  ranking_table exact_arithmetic text_ghi [] =
    ([] ++ [st.subheader "Average GHI Ranking (Selected Countries)"],
     Raise (TypeError "agg function failed [how->mean,dtype->object]")).
Proof.
  apply (ranking_text_ghi_raises exact_arithmetic text_ghi
           (<["GHI" := pd.Str "n/a"]> (<["Country" := pd.Str "Togo"]> ∅))
           "n/a" []).
  - column_present.
  - column_present.
  - right. left.
  - done.
  - reflexivity.
Defined.

(** ** The cleaning-impact table *)

Lemma impact_row_status k a b :
  pd.cell_at (impact_row k a b) "Cleaning Status" =
    match k.2 with
    | pd.Num q =>
        if Qeq_bool 0 q then pd.Str "No Cleaning"
        else if Qeq_bool 1 q then pd.Str "Cleaning Occurred"
        else pd.NaN
    | _ => pd.NaN
    end.
Proof. unfold impact_row, pd.cell_at. by rewrite lookup_insert_eq. Qed.

(** X15.  The table of the cleaning chart has the columns Country, Cleaning,
    ModA, ModB and Cleaning Status; a row whose Cleaning is 0 is labelled
    "No Cleaning", one whose Cleaning is 1 "Cleaning Occurred", and one with
    any other number has no label. *)
Theorem cleaning_status_labels arith view impact r q :
  cleaning_impact_df arith view = Ok impact →
  r ∈ pd.rows impact →
  pd.cell_at r "Cleaning" = pd.Num q →
  pd.columns impact
    = ["Country"; "Cleaning"; "ModA"; "ModB"; "Cleaning Status"] ∧
  ((q == 0)%Q → pd.cell_at r "Cleaning Status" = pd.Str "No Cleaning") ∧
  ((q == 1)%Q → pd.cell_at r "Cleaning Status" = pd.Str "Cleaning Occurred") ∧
  (¬ (q == 0)%Q → ¬ (q == 1)%Q → pd.cell_at r "Cleaning Status" = pd.NaN).
Proof.
  intros Himp Hr Hq.
  destruct (cleaning_impact_df_inv _ _ _ Himp)
    as (_ & _ & _ & _ & Hcols & Hrows).
  split; [done|].
  apply list_elem_of_lookup in Hr as [i Hi].
  destruct (Forall2_lookup_r _ _ _ _ _ Hrows Hi)
    as (k & _ & a & b & _ & _ & ->).
  pose proof (impact_row_group k a b) as Hg. unfold group_of in Hg.
  rewrite Hq in Hg. rewrite impact_row_status.
  destruct k as [c k]. assert (k = pd.Num q) as -> by congruence. simpl.
  destruct (Qeq_bool 0 q) eqn:H0; [|destruct (Qeq_bool 1 q) eqn:H1].
  - apply Qeq_bool_iff in H0. split; [done|]. split.
    + intros H1. rewrite H1 in H0. discriminate H0.
    + intros Hn0. destruct Hn0. by symmetry.
  - apply Qeq_bool_neq in H0. apply Qeq_bool_iff in H1. split.
    + intros Hq0. destruct H0. by symmetry.
    + split; [done|]. intros _ Hn1. destruct Hn1. by symmetry.
  - apply Qeq_bool_neq in H0. apply Qeq_bool_neq in H1. split.
    + intros Hq0. destruct H0. by symmetry.
    + split; [|done]. intros Hq1. destruct H1. by symmetry.
Qed.

Lemma cleaning_status_labels_witness :
  pd.columns example_impact
    = ["Country"; "Cleaning"; "ModA"; "ModB"; "Cleaning Status"] ∧
  ((1 == 0)%Q →
   pd.cell_at (impact_row (pd.Str "Benin", pd.Num 1) (pd.Num 310) (pd.Num 330))
     "Cleaning Status" = pd.Str "No Cleaning") ∧
  ((1 == 1)%Q →
   pd.cell_at (impact_row (pd.Str "Benin", pd.Num 1) (pd.Num 310) (pd.Num 330))
     "Cleaning Status" = pd.Str "Cleaning Occurred") ∧
  (¬ (1 == 0)%Q → ¬ (1 == 1)%Q →
   pd.cell_at (impact_row (pd.Str "Benin", pd.Num 1) (pd.Num 310) (pd.Num 330))
     "Cleaning Status" = pd.NaN).
Proof.
  apply (cleaning_status_labels exact_arithmetic example_dataset example_impact
           (impact_row (pd.Str "Benin", pd.Num 1) (pd.Num 310) (pd.Num 330))
           1).
  - vm_compute. reflexivity.
  - apply list_elem_of_lookup. exists 1%nat. vm_compute. reflexivity.
  - exact (f_equal snd
             (impact_row_group (pd.Str "Benin", pd.Num 1)
                (pd.Num 310) (pd.Num 330))).
Defined.

(** X16.  The cleaning chart checks for the [Cleaning] column only: when two
    present Cleaning values differ and the view lacks the ModA or the ModB
    column, the heading of the chart is shown and a [KeyError] for the
    missing column is raised. *)
Theorem cleaning_chart_missing_module_column arith view cleaning x y page :
  pd.getitem view "Cleaning" = Ok cleaning →
  x ∈ cleaning → y ∈ cleaning → x ≠ pd.NaN → y ≠ pd.NaN →
  pd.cell_eqb x y = false →
  "Country" ∈ pd.columns view →
  "ModA" ∉ pd.columns view ∨ "ModB" ∉ pd.columns view →
  ∃ col,
    (col = "ModA" ∨ col = "ModB") ∧ (col ∉ pd.columns view) ∧
    cleaning_chart arith view page =
      (page ++ [st.subheader "Average ModA & ModB by Cleaning Event"],
       Raise (KeyError col)).
Proof.
  intros Hcl Hx Hy Hxn Hyn Hxy Hc Hmiss.
  pose proof Hcl as Hcl'. apply getitem_Ok_inv in Hcl' as [Hk _].
  pose proof (nunique_two_differ _ _ _ Hx Hy Hxn Hyn Hxy) as Hn.
  apply Nat.ltb_lt in Hn.
  assert (∀ col, cleaning_impact_df arith view = Raise (KeyError col) →
            cleaning_chart arith view page =
              (page ++ [st.subheader "Average ModA & ModB by Cleaning Event"],
               Raise (KeyError col))) as Hrun.
  { intros col Himp. unfold cleaning_chart.
    rewrite bool_decide_eq_true_2 by done.
    unfold mbind, st.App_bind, st.lift, st.show. by rewrite Hcl, Hn, Himp. }
  destruct (decide ("ModA" ∈ pd.columns view)) as [Ha|Ha].
  - destruct Hmiss as [?|Hb]; [done|]. exists "ModB".
    split; [by right|]. split; [done|]. apply Hrun.
    unfold cleaning_impact_df, pd.groupby2_mean.
    by rewrite (getitem_Ok _ _ Hc), Hcl, (getitem_Ok _ _ Ha),
      (getitem_KeyError _ _ Hb).
  - exists "ModA". split; [by left|]. split; [done|]. apply Hrun.
    unfold cleaning_impact_df, pd.groupby2_mean.
    by rewrite (getitem_Ok _ _ Hc), Hcl, (getitem_KeyError _ _ Ha).
Qed.

Lemma cleaning_chart_missing_module_column_witness :
  ∃ col,
    (col = "ModA" ∨ col = "ModB") ∧ (col ∉ pd.columns no_module_columns) ∧
    cleaning_chart exact_arithmetic no_module_columns [] =
      ([] ++ [st.subheader "Average ModA & ModB by Cleaning Event"],
       Raise (KeyError col)).
Proof.
  apply (cleaning_chart_missing_module_column exact_arithmetic
           no_module_columns [pd.Num 0; pd.Num 1] (pd.Num 0) (pd.Num 1) []).
  - reflexivity.
  - left.
  - right. left.
  - discriminate.
  - discriminate.
  - reflexivity.
  - column_present.
  - left. apply (bool_decide_unpack _). vm_compute. exact I.
Defined.

(** ** The countries offered in the sidebar *)

Lemma cell_eqb_Str s c : pd.cell_eqb (pd.Str s) c = true → c = pd.Str s.
Proof.
  destruct c; simpl; try done. rewrite bool_decide_eq_true. congruence.
Qed.

(** X17.  For a frame returned by the loader that is not empty, the countries
    offered for selection are distinct, each is a configured country, and the
    country of every row is among them. *)
Theorem offered_countries_are_configured os_path_exists read_csv
    base files page page' df :
  load_files os_path_exists read_csv base files page = (page', Ok df) →
  pd.empty df = false →
  ∃ options,
    all_countries df = Ok options ∧
    NoDup options ∧
    (∀ c, c ∈ options → ∃ cf, cf ∈ files ∧ c = pd.Str cf.1) ∧
    (∀ r, r ∈ pd.rows df → pd.cell_at r "Country" ∈ options).
Proof.
  intros Hrun Hne.
  destruct (loaded_rows_tagged _ _ _ _ _ _ _ Hrun Hne) as [Hc Htag].
  set (cells := map (λ r, pd.cell_at r "Country") (pd.rows df)).
  exists (pd.unique cells). split; [|split; [|split]].
  - unfold all_countries. by rewrite getitem_Ok.
  - apply dedup_from_NoDup; [apply cell_eqb_refl|constructor].
  - intros c Hin.
    apply dedup_from_elem in Hin as [Hin|Hin]; [by apply elem_of_nil in Hin|].
    apply list_elem_of_fmap in Hin as (r & -> & Hr).
    destruct (Htag r Hr) as (cf & Hcf & Hlook).
    exists cf. split; [done|]. unfold pd.cell_at. by rewrite Hlook.
  - intros r Hr. destruct (Htag r Hr) as (cf & _ & Hlook).
    assert (pd.cell_at r "Country" = pd.Str cf.1) as Hcell
      by (unfold pd.cell_at; by rewrite Hlook).
    assert (pd.cell_at r "Country" ∈ cells) as Hin
      by (apply list_elem_of_fmap; by exists r).
    pose proof (dedup_from_covers pd.cell_eqb [] _ _ cell_eqb_refl Hin) as Hex.
    apply existsb_exists in Hex as (c' & Hc' & Heq).
    rewrite Hcell in Heq. apply cell_eqb_Str in Heq as ->.
    rewrite Hcell. by apply list_elem_of_In.
Qed.

Lemma offered_countries_are_configured_witness :
  ∃ options,
    all_countries example_dataset = Ok options ∧
    NoDup options ∧
    (∀ c, c ∈ options → ∃ cf, cf ∈ country_files ∧ c = pd.Str cf.1) ∧
    (∀ r, r ∈ pd.rows example_dataset → pd.cell_at r "Country" ∈ options).
Proof.
  apply (offered_countries_are_configured (disk_exists all_three)
           disk_read_csv base_path country_files [] [] example_dataset).
  - vm_compute. reflexivity.
  - reflexivity.
Defined.

(** ** Runs of the whole script *)

(** X18.  When every configured file is read, the loader shows nothing and
    the page is the title followed by the dashboard of the concatenation of
    the files' frames, each tagged with its country. *)
Theorem main_with_all_files os_path_exists read_csv arith multiselect
    selectbox frames page :
  readable os_path_exists read_csv base_path country_files frames →
  main os_path_exists read_csv arith multiselect selectbox page =
    dashboard arith multiselect selectbox
      (pd.concat (tag_frames country_files frames))
      (page ++ [st.page_config "wide";
                st.title "Cross-Country Solar Farm Analysis Dashboard"]).
Proof.
  intros Hr. pose proof (Forall2_length _ _ _ Hr) as Hlen.
  unfold main, load_all_cleaned_data, load_files.
  unfold mbind at 1 2 3. unfold st.App_bind at 1 2 3. unfold st.show at 1 2.
  rewrite (load_loop_readable _ _ _ _ frames) by done.
  rewrite <- app_assoc. simpl.
  do 4 (destruct frames as [|? frames]; try done).
Qed.

Lemma main_with_all_files_witness :
  main (disk_exists all_three) disk_read_csv exact_arithmetic keep_default
    (choose "GHI") [] =
    dashboard exact_arithmetic keep_default (choose "GHI")
      (pd.concat (tag_frames country_files
                    [benin_csv; sierra_leone_csv; togo_csv]))
      ([] ++ [st.page_config "wide";
              st.title "Cross-Country Solar Farm Analysis Dashboard"]).
Proof.
  apply (main_with_all_files (disk_exists all_three) disk_read_csv
           exact_arithmetic keep_default (choose "GHI")
           [benin_csv; sierra_leone_csv; togo_csv] []).
  repeat constructor.
Defined.

(** X19.  Nothing checks for the [Timestamp] column: for a view without it
    (the metric and [Country] columns being there) the box plot is shown,
    then the heading of the time series, and the time series raises a
    [ValueError]. *)
Theorem metric_charts_without_timestamp view metric page :
  metric ∈ metric_options →
  metric ∈ pd.columns view →
  "Country" ∈ pd.columns view →
  "Timestamp" ∉ pd.columns view →
  metric_charts view metric page =
    (page ++
       [st.subheader ("Distribution of " +:+ metric
                      +:+ " Across Selected Countries");
        st.plotly_chart
          (px.Box view "Country" metric "Country"
             (metric +:+ " Distribution") [(metric, metric +:+ " ()")]) true;
        st.subheader ("Time Series of " +:+ metric)],
     Raise (ValueError "Timestamp")).
Proof.
  intros Hm Hcol Hc Ht. unfold metric_charts.
  assert (str_in "(" metric = false) as Hunit.
  { unfold metric_options in Hm.
    repeat (apply elem_of_cons in Hm as [->|Hm]); try reflexivity.
    by apply elem_of_nil in Hm. }
  rewrite Hunit. unfold px.box, px.line.
  rewrite (px_check_columns_Ok view ["Country"; metric; "Country"])
    by (repeat (apply List.Forall_cons; [done|]); apply List.Forall_nil).
  assert (px.check_columns view ["Timestamp"; metric; "Country"]
          = Raise (ValueError "Timestamp")) as ->.
  { unfold px.check_columns. simpl. by rewrite bool_decide_eq_false_2. }
  unfold mbind, st.App_bind, st.show, st.lift, result_bind.
  rewrite (getitem_Ok _ _ Hcol). simpl. by rewrite <- !app_assoc.
Qed.

Lemma metric_charts_without_timestamp_witness :
  metric_charts no_module_columns "GHI" [] =
    ([] ++
       [st.subheader ("Distribution of " +:+ "GHI"
                      +:+ " Across Selected Countries");
        st.plotly_chart
          (px.Box no_module_columns "Country" "GHI" "Country"
             ("GHI" +:+ " Distribution") [("GHI", "GHI" +:+ " ()")]) true;
        st.subheader ("Time Series of " +:+ "GHI")],
     Raise (ValueError "Timestamp")).
Proof.
  apply (metric_charts_without_timestamp no_module_columns "GHI" []);
    column_present.
Defined.

(** ** What is shown as an error *)

Section appends.
Context {A B : Type} (P : st.element → Prop).

Lemma appends_ret (a : A) : appends P (mret a).
Proof. intros page. exists []. by rewrite app_nil_r. Qed.

Lemma appends_lift (r : result A) : appends P (st.lift r).
Proof. intros page. exists []. by rewrite app_nil_r. Qed.

Lemma appends_show e : P e → appends P (st.show e).
Proof. intros He page. exists [e]. split; [done|]. by constructor. Qed.

Lemma appends_bind (m : st.App A) (f : A → st.App B) :
  appends P m → (∀ a, appends P (f a)) → appends P (m ≫= f).
Proof.
  intros Hm Hf page. destruct (Hm page) as (added & Hpage & Hadded).
  unfold mbind, st.App_bind. destruct (m page) as [page' [a|e]]; simpl in *.
  - destruct (Hf a page') as (added' & Hpage' & Hadded').
    exists (added ++ added'). rewrite Hpage', Hpage, app_assoc.
    split; [done|]. by apply Forall_app.
  - by exists added.
Qed.

End appends.

Lemma appends_weaken {A} (P Q : st.element → Prop) (m : st.App A) :
  (∀ e, P e → Q e) → appends P m → appends Q m.
Proof.
  intros HPQ Hm page. destruct (Hm page) as (added & ? & Hadded).
  exists added. split; [done|]. by eapply Forall_impl.
Qed.

Ltac appends_step :=
  first [ apply appends_ret | apply appends_lift
        | apply appends_show; intros body; discriminate
        | apply appends_bind; [|intros ?] ].

Lemma metric_charts_no_error view metric :
  appends no_error (metric_charts view metric).
Proof. unfold metric_charts. repeat appends_step. Qed.

Lemma ranking_table_no_error ar view :
  appends no_error (ranking_table ar view).
Proof.
  unfold ranking_table. appends_step; [appends_step|].
  case_bool_decide; repeat appends_step.
Qed.

Lemma cleaning_chart_no_error ar view :
  appends no_error (cleaning_chart ar view).
Proof.
  unfold cleaning_chart. case_bool_decide; [|appends_step].
  appends_step; [appends_step|].
  destruct (_ <? _)%nat; repeat appends_step.
Qed.

Lemma dashboard_no_error ar multiselect selectbox df :
  appends no_error (dashboard ar multiselect selectbox df).
Proof.
  unfold dashboard. destruct (negb (pd.empty df)); [|appends_step].
  do 3 (appends_step; [appends_step|]).
  destruct (negb (pd.empty _)); [|appends_step].
  appends_step; [apply metric_charts_no_error|].
  appends_step; [apply ranking_table_no_error|].
  apply cleaning_chart_no_error.
Qed.

Lemma load_loop_errors os_path_exists read_csv base files all_dfs :
  appends (error_is_missing_file os_path_exists base files)
    (load_loop os_path_exists read_csv base files all_dfs).
Proof.
  revert all_dfs. induction files as [|[c f] files IH]; intros all_dfs.
  - simpl. destruct all_dfs; apply appends_ret.
  - simpl. destruct (os_path_exists (os_path.join base f)) eqn:Hex.
    + apply appends_bind; [apply appends_lift|]. intros d.
      eapply appends_weaken; [|apply IH].
      intros e [He|(cf & Hcf & Hmiss & ->)]; [by left|right].
      exists cf. split; [by right|done].
    + apply appends_bind; [|intros ?; apply appends_ret].
      apply appends_show. right. exists (c, f). split; [by left|done].
Qed.

(** X20.  The script shows an error only for a missing file: every
    [st.error] that a run adds to the page is the message naming a
    configured file that does not exist. *)
Theorem main_errors_are_missing_files os_path_exists read_csv arith
    multiselect selectbox page body :
  st.error body
  ∈ (main os_path_exists read_csv arith multiselect selectbox page).1 →
  st.error body ∈ page ∨
  ∃ cf, cf ∈ country_files ∧
        os_path_exists (os_path.join base_path cf.2) = false ∧
        body = missing_file_message cf.1 (os_path.join base_path cf.2).
Proof.
  assert (appends (error_is_missing_file os_path_exists base_path country_files)
            (main os_path_exists read_csv arith multiselect selectbox))
    as Hmain.
  { unfold main.
    apply appends_bind; [apply appends_show; left; intros ?; discriminate|].
    intros _.
    apply appends_bind; [apply appends_show; left; intros ?; discriminate|].
    intros _. apply appends_bind; [apply load_loop_errors|]. intros df.
    eapply appends_weaken; [|apply dashboard_no_error]. intros e He. by left. }
  destruct (Hmain page) as (added & -> & Hadded). intros Hin.
  apply elem_of_app in Hin as [?|Hin]; [by left|right].
  rewrite Forall_forall in Hadded.
  destruct (Hadded _ Hin) as [Hno|(cf & Hcf & Hmiss & [= ->])].
  - by destruct (Hno body).
  - by exists cf.
Qed.

Lemma main_errors_are_missing_files_witness :
  st.error (missing_file_message "Sierra Leone"
              "../data/sierra_leone_clean.csv") ∈ [] ∨
  ∃ cf, cf ∈ country_files ∧
        disk_exists without_sierra_leone (os_path.join base_path cf.2) = false ∧
        missing_file_message "Sierra Leone" "../data/sierra_leone_clean.csv"
        = missing_file_message cf.1 (os_path.join base_path cf.2).
Proof.
  apply (main_errors_are_missing_files (disk_exists without_sierra_leone)
           disk_read_csv exact_arithmetic keep_default (choose "GHI") []).
  assert ((main (disk_exists without_sierra_leone) disk_read_csv
             exact_arithmetic keep_default (choose "GHI") []).1 =
          [st.page_config "wide";
           st.title "Cross-Country Solar Farm Analysis Dashboard";
           st.error (missing_file_message "Sierra Leone"
                       "../data/sierra_leone_clean.csv");
           st.warning "No data loaded. Please ensure the EDA notebooks were run successfully and cleaned CSVs are in the 'data/' directory."])
    as -> by (vm_compute; reflexivity).
  right. right. left.
Defined.

